(** * Nexus Course Enroll: the enrollment transaction

    A shallow embedding of the enrollment paths of the repository:
    - [shared/models.py]: the pydantic records [User], [Course],
      [Enrollment], [Grade] and [EnrollmentRequest];
    - [shared/database.py]: [SQLiteDatabase], the in-memory dictionaries
      together with the SQLite tables behind them;
    - [services/student_service.py]: [enroll_in_course], [drop_course],
      [has_time_conflict];
    - [services/admin_service.py]: [force_enrollment];
    - [run_services.py]: the services as processes of their own, each with
      its own [db] object over the one SQLite file ([services], [serve]).

    Conventions of the embedding.
    - A Python [str] is a [string]; one [ascii] stands for one code point
      (the code points below 256).  A Python [int] is a [Z].
    - [datetime] values are opaque instants; [datetime.now()] and
      [uuid.uuid4()] are inputs of the operations that call them.
    - The endpoints run in the monad [M]: a state transformer over
      [SQLiteDatabase] in which a raised exception keeps the state reached
      so far, as a Python [raise] does.
    - [db.users], [db.courses] and [db.grades] are only looked up by key or
      scanned for membership: they are [gmap]s.  [db.enrollments] is scanned
      in insertion order to pick the first clashing course, so it is an
      insertion-ordered association list ([odict]).
    - A pydantic object stored in a dictionary is held by value under its
      key; an attribute assignment through a local variable that aliases the
      stored object is an update of the entry it was fetched from.  This
      agrees with the program as long as no object sits under two keys,
      which is the case when keys are the objects' ids ([keys_match]).
    - An [SQLiteDatabase] value is the [db] object of one process: its
      dictionaries and the tables as that process finds them.  Several
      processes over one file are [services].
    - [print] is dropped.  Of the ways a SQLite statement can fail, the one
      that depends on the data is modelled where the data can reach it:
      sqlite3 binds a Python [int] as a 64-bit integer and raises
      [OverflowError] beyond that.  [force_enrollment] raises a counter with
      no bound, and is modelled with that check ([binds]).
      [enroll_in_course] and [drop_course] are modelled for courses whose
      integers fit, as those of every course read from the table do: there
      the counter stays between 0 and the capacity, so the check passes and
      is left out. *)

From Stdlib Require Import ZArith List Ascii String Lia.
From stdpp Require Import base gmap strings list fin_maps.

Local Open Scope string_scope.

(** ** shared/models.py *)

Definition datetime := Z.

Module User.
Inductive UserRole := STUDENT | FACULTY | ADMIN.
Record t := mk {
  id : string;
  username : string;
  email : string;
  role : UserRole;
  full_name : string;
  is_active : bool
}.
End User.

Module Course.
Record t := mk {
  id : string;
  course_code : string;
  name : string;
  description : string;
  instructor_id : string;
  instructor_name : string;
  capacity : Z;
  enrolled_count : Z;
  schedule : string;
  location : string;
  prerequisites : list string;
  department : string;
  credits : Z
}.

(** [course.enrolled_count = n] *)
Definition set_enrolled_count (n : Z) (c : t) : t :=
  mk (id c) (course_code c) (name c) (description c) (instructor_id c)
     (instructor_name c) (capacity c) n (schedule c) (location c)
     (prerequisites c) (department c) (credits c).
End Course.

Module Enrollment.
Record t := mk {
  id : string;
  student_id : string;
  course_id : string;
  semester : string;
  status : string;
  enrollment_date : datetime
}.

(** [enrollment.status = s] *)
Definition set_status (s : string) (e : t) : t :=
  mk (id e) (student_id e) (course_id e) (semester e) s (enrollment_date e).
End Enrollment.

Module Grade.
Record t := mk {
  id : string;
  student_id : string;
  course_id : string;
  grade : string;
  semester : string;
  status : string;
  submitted_by : string;
  submitted_date : option datetime
}.
End Grade.

Module EnrollmentRequest.
Record t := mk {
  student_id : string;
  course_id : string;
  semester : string
}.
End EnrollmentRequest.

(** ** Insertion-ordered dictionaries *)

Section odict.
Context {V : Type}.

(** [d.get(k)] *)
Fixpoint od_get (k : string) (d : list (string * V)) : option V :=
  match d with
  | [] => None
  | (k', v) :: d' => if decide (k = k') then Some v else od_get k d'
  end.

(** [d[k] = v]: an existing key keeps its position, a new key goes last. *)
Fixpoint od_set (k : string) (v : V) (d : list (string * V)) : list (string * V) :=
  match d with
  | [] => [(k, v)]
  | (k', v') :: d' =>
      if decide (k = k') then (k, v) :: d' else (k', v') :: od_set k v d'
  end.

(** [d.values()] *)
Definition od_values (d : list (string * V)) : list V := map snd d.

Definition od_keys (d : list (string * V)) : list string := map fst d.
End odict.

Abbreviation odict V := (list (string * V)).

(** ** shared/database.py *)

Record SQLiteDatabase := mkDB {
  users : gmap string User.t;
  courses : gmap string Course.t;
  enrollments : odict Enrollment.t;
  grades : gmap string Grade.t;
  (* rows of the SQLite tables, in rowid order *)
  sql_users : list User.t;
  sql_courses : list Course.t;
  sql_enrollments : list Enrollment.t;
  sql_grades : list Grade.t
}.

Definition set_users (u : gmap string User.t) (db : SQLiteDatabase) :=
  mkDB u (courses db) (enrollments db) (grades db)
       (sql_users db) (sql_courses db) (sql_enrollments db) (sql_grades db).
Definition set_courses (c : gmap string Course.t) (db : SQLiteDatabase) :=
  mkDB (users db) c (enrollments db) (grades db)
       (sql_users db) (sql_courses db) (sql_enrollments db) (sql_grades db).
Definition set_enrollments (e : odict Enrollment.t) (db : SQLiteDatabase) :=
  mkDB (users db) (courses db) e (grades db)
       (sql_users db) (sql_courses db) (sql_enrollments db) (sql_grades db).
Definition set_sql_courses (r : list Course.t) (db : SQLiteDatabase) :=
  mkDB (users db) (courses db) (enrollments db) (grades db)
       (sql_users db) r (sql_enrollments db) (sql_grades db).
Definition set_sql_enrollments (r : list Enrollment.t) (db : SQLiteDatabase) :=
  mkDB (users db) (courses db) (enrollments db) (grades db)
       (sql_users db) (sql_courses db) r (sql_grades db).

(** *** Exceptions and the endpoint monad *)

Inductive exn :=
| HTTPException (status_code : Z) (detail : string)
| KeyError (key : string)
| OverflowError (message : string).

Inductive outcome (A : Type) :=
| Return (a : A)
| Raise (e : exn).
Arguments Return {A} a.
Arguments Raise {A} e.

Definition M (A : Type) : Type := SQLiteDatabase → outcome A * SQLiteDatabase.

Definition ret {A} (a : A) : M A := λ db, (Return a, db).
Definition raise {A} (e : exn) : M A := λ db, (Raise e, db).
Definition bind {A B} (m : M A) (k : A → M B) : M B := λ db,
  match m db with
  | (Return a, db') => k a db'
  | (Raise e, db') => (Raise e, db')
  end.
Definition gets {A} (f : SQLiteDatabase → A) : M A := λ db, (Return (f db), db).
Definition modify (f : SQLiteDatabase → SQLiteDatabase) : M unit :=
  λ db, (Return tt, f db).

Notation "'let*' x := m 'in' k" := (bind m (λ x, k))
  (at level 10, x pattern, m at level 100, k at level 200).
Notation "m ;; k" := (bind m (λ _, k))
  (at level 100, k at level 200, right associativity).

(** [for x in l: body(x)] *)
Fixpoint for_each {A} (l : list A) (body : A → M unit) : M unit :=
  match l with
  | [] => ret tt
  | x :: l' => body x ;; for_each l' body
  end.

(** *** SQL statements *)

(** [INSERT OR REPLACE]: the rows that clash with the new one on the primary
    key or on a UNIQUE column are deleted, then the new row is added. *)
Definition insert_or_replace {R} (clash : R → R → bool) (row : R) (tbl : list R) : list R :=
  filter (λ r, negb (clash row r)) tbl ++ [row].

(** courses: [id TEXT PRIMARY KEY], [course_code TEXT UNIQUE] *)
Definition courses_clash (a b : Course.t) : bool :=
  bool_decide (Course.id a = Course.id b)
  || bool_decide (Course.course_code a = Course.course_code b).

(** enrollments: [id TEXT PRIMARY KEY] *)
Definition enrollments_clash (a b : Enrollment.t) : bool :=
  bool_decide (Enrollment.id a = Enrollment.id b).

(** [SELECT * FROM courses WHERE id = ?] then [fetchone()] *)
Definition select_course (course_id : string) (tbl : list Course.t) : option Course.t :=
  find (λ row, bool_decide (Course.id row = course_id)) tbl.

(** [SELECT * FROM users WHERE id = ?] then [fetchone()] *)
Definition select_user (user_id : string) (tbl : list User.t) : option User.t :=
  find (λ row, bool_decide (User.id row = user_id)) tbl.

(** sqlite3 binds a Python [int] to a parameter of a statement as a 64-bit
    signed integer, and raises [OverflowError] for one that does not fit,
    before the statement runs. *)
Definition fits_INTEGER (n : Z) : bool :=
  ((- 2 ^ 63 <=? n) && (n <=? 2 ^ 63 - 1))%Z.

(** The integers among the parameters of the statement of [_save_course]:
    [capacity], [enrolled_count] and [credits]. *)
Definition binds (course : Course.t) : bool :=
  fits_INTEGER (Course.capacity course)
  && fits_INTEGER (Course.enrolled_count course)
  && fits_INTEGER (Course.credits course).

(** *** Methods of [SQLiteDatabase] *)

Definition _save_course (course : Course.t) : M unit :=
  modify (λ db,
    set_courses (<[Course.id course := course]> (courses db))
      (set_sql_courses (insert_or_replace courses_clash course (sql_courses db)) db)).

Definition _save_enrollment (enrollment : Enrollment.t) : M unit :=
  modify (λ db,
    set_enrollments (od_set (Enrollment.id enrollment) enrollment (enrollments db))
      (set_sql_enrollments
         (insert_or_replace enrollments_clash enrollment (sql_enrollments db)) db)).

Definition add_enrollment (enrollment : Enrollment.t) : M unit :=
  _save_enrollment enrollment.

Definition refresh_user_from_db (user_id : string) : M (option User.t) := λ db,
  match users db !! user_id with
  | Some user => (Return (Some user), db)
  | None =>
      match select_user user_id (sql_users db) with
      | Some user =>
          (Return (Some user), set_users (<[User.id user := user]> (users db)) db)
      | None => (Return None, db)
      end
  end.

Definition get_user_by_id (user_id : string) : M (option User.t) :=
  refresh_user_from_db user_id.

Definition refresh_course_from_db (course_id : string) : M (option Course.t) := λ db,
  match courses db !! course_id with
  | Some course => (Return (Some course), db)
  | None =>
      match select_course course_id (sql_courses db) with
      | Some course =>
          (Return (Some course),
           set_courses (<[Course.id course := course]> (courses db)) db)
      | None => (Return None, db)
      end
  end.

(** [db.courses[key].enrolled_count = n], for a local variable bound to the
    object stored under [key]. *)
Definition assign_enrolled_count (key : string) (n : Z) : M unit :=
  modify (λ db, set_courses (alter (Course.set_enrolled_count n) key (courses db)) db).

(** [db.enrollments[key].status = s], likewise. *)
Definition assign_status (key : string) (s : string) : M unit :=
  modify (λ db,
    match od_get key (enrollments db) with
    | Some e => set_enrollments (od_set key (Enrollment.set_status s e) (enrollments db)) db
    | None => db
    end).

(** ** services/student_service.py *)

(** Python's [str.isspace] on the code points below 256. *)
Definition isspace (c : ascii) : bool :=
  let n := N_of_ascii c in
  ((9 <=? n) && (n <=? 13) || (28 <=? n) && (n <=? 32) || (n =? 133) || (n =? 160))%N.

(** [s.split()]: [tok] is the token being read. *)
Fixpoint split_from (tok : list ascii) (s : list ascii) : list (list ascii) :=
  match s with
  | [] => match tok with [] => [] | _ => [tok] end
  | c :: s' =>
      if isspace c
      then match tok with [] => split_from [] s' | _ => tok :: split_from [] s' end
      else split_from (tok ++ [c]) s'
  end.

Definition split (s : string) : list string :=
  map string_of_list_ascii (split_from [] (list_ascii_of_string s)).

Definition has_time_conflict (schedule1 schedule2 : string) : bool :=
  let days1 := match split schedule1 with d :: _ => d | [] => "" end in
  let days2 := match split schedule2 with d :: _ => d | [] => "" end in
  existsb (λ day, bool_decide (day ∈ list_ascii_of_string days2))
          (list_ascii_of_string days1).

Definition is_existing_enrollment (request : EnrollmentRequest.t) (enrollment : Enrollment.t) : bool :=
  bool_decide (Enrollment.student_id enrollment = EnrollmentRequest.student_id request)
  && bool_decide (Enrollment.course_id enrollment = EnrollmentRequest.course_id request)
  && bool_decide (Enrollment.semester enrollment = EnrollmentRequest.semester request)
  && bool_decide (Enrollment.status enrollment = "enrolled").

Definition is_completed_grade (student_id : string) (grade : Grade.t) : bool :=
  bool_decide (Grade.student_id grade = student_id)
  && bool_decide (Grade.status grade = "submitted")
  && bool_decide (Grade.grade grade ∈ ["A"; "B"; "C"; "D"]).

(** The list built by the loop over [db.grades.values()]. *)
Definition student_completed_courses (student_id : string) (all_grades : list Grade.t) : list string :=
  map Grade.course_id (filter (λ g, is_completed_grade student_id g) all_grades).

Definition is_student_enrollment (request : EnrollmentRequest.t) (e : Enrollment.t) : bool :=
  bool_decide (Enrollment.student_id e = EnrollmentRequest.student_id request)
  && bool_decide (Enrollment.semester e = EnrollmentRequest.semester request)
  && bool_decide (Enrollment.status e = "enrolled").

(** Body of the loop [for prereq in course.prerequisites]. *)
Definition check_prerequisite (student_completed_courses : list string)
    (prereq : string) : M unit :=
  if bool_decide (prereq ∈ student_completed_courses) then ret tt
  else
    let* prereq_course := refresh_course_from_db prereq in
    let prereq_name :=
      match prereq_course with Some pc => Course.name pc | None => prereq end in
    raise (HTTPException 400 ("Prerequisite not met: " ++ prereq_name)).

(** Body of the loop [for enrollment in student_enrollments]. *)
Definition check_time_conflict (course : Course.t) (enrollment : Enrollment.t) : M unit :=
  let* enrolled_course := refresh_course_from_db (Enrollment.course_id enrollment) in
  match enrolled_course with
  | Some enrolled_course =>
      if has_time_conflict (Course.schedule course) (Course.schedule enrolled_course)
      then raise (HTTPException 400 ("Time conflict with " ++ Course.name enrolled_course))
      else ret tt
  | None => ret tt
  end.

(** A JSON object of strings, the body of a 200 response. *)
Definition response := list (string * string).

Definition enroll_in_course (request : EnrollmentRequest.t)
    (uuid4 : string) (now : datetime) : M response :=
  let* course := refresh_course_from_db (EnrollmentRequest.course_id request) in
  match course with
  | None => raise (HTTPException 404 "Course not found")
  | Some course =>
  let* student := get_user_by_id (EnrollmentRequest.student_id request) in
  match student with
  | None => raise (HTTPException 404 "Student not found")
  | Some _ =>
  (* Check if already enrolled *)
  let* all_enrollments := gets (λ db, od_values (enrollments db)) in
  match find (is_existing_enrollment request) all_enrollments with
  | Some _ => raise (HTTPException 400 "Already enrolled in this course")
  | None =>
  (* Check capacity *)
  if bool_decide (Course.enrolled_count course >= Course.capacity course)%Z
  then raise (HTTPException 400 "Course is full")
  else
  (* Check prerequisites *)
  let* completed :=
    gets (λ db, student_completed_courses (EnrollmentRequest.student_id request)
                  ((map_to_list (grades db)).*2)) in
  for_each (Course.prerequisites course) (check_prerequisite completed) ;;
  (* Check time conflicts *)
  let* student_enrollments :=
    gets (λ db, filter (λ e, is_student_enrollment request e)
                       (od_values (enrollments db))) in
  for_each student_enrollments (check_time_conflict course) ;;
  (* Create enrollment *)
  let enrollment_id := uuid4 in
  let new_enrollment :=
    Enrollment.mk enrollment_id (EnrollmentRequest.student_id request)
      (EnrollmentRequest.course_id request) (EnrollmentRequest.semester request)
      "enrolled" now in
  (* Transaction: Update both enrollment and course capacity *)
  modify (λ db, set_enrollments (od_set enrollment_id new_enrollment (enrollments db)) db) ;;
  assign_enrolled_count (EnrollmentRequest.course_id request)
                        (Course.enrolled_count course + 1) ;;
  let course := Course.set_enrolled_count (Course.enrolled_count course + 1) course in
  (* Sync changes to SQLite database *)
  add_enrollment new_enrollment ;;
  _save_course course ;;
  ret [("message", "Successfully enrolled"); ("enrollment_id", enrollment_id)]
  end end end.

Definition drop_course (enrollment_id : string) : M response :=
  let* enrollment := gets (λ db, od_get enrollment_id (enrollments db)) in
  match enrollment with
  | None => raise (HTTPException 404 "Enrollment not found")
  | Some enrollment =>
  let* course := gets (λ db, courses db !! Enrollment.course_id enrollment) in
  match course with
  | Some course =>
      let n := Z.max 0 (Course.enrolled_count course - 1) in
      assign_enrolled_count (Enrollment.course_id enrollment) n ;;
      _save_course (Course.set_enrolled_count n course)
  | None => ret tt
  end ;;
  assign_status enrollment_id "dropped" ;;
  _save_enrollment (Enrollment.set_status "dropped" enrollment) ;;
  ret [("message", "Successfully dropped course")]
  end.

(** ** services/admin_service.py *)

(** [enrollment_data[key]] *)
Definition getitem (enrollment_data : gmap string string) (key : string) : M string :=
  match enrollment_data !! key with
  | Some v => ret v
  | None => raise (KeyError key)
  end.

Definition force_enrollment (enrollment_data : gmap string string)
    (uuid4 : string) (now : datetime) : M response :=
  let* student_id := getitem enrollment_data "student_id" in
  let* course_id := getitem enrollment_data "course_id" in
  let* semester := getitem enrollment_data "semester" in
  (* Validate student and course exist *)
  let* known_student := gets (λ db, bool_decide (is_Some (users db !! student_id))) in
  if negb known_student then raise (HTTPException 404 "Student not found") else
  let* known_course := gets (λ db, courses db !! course_id) in
  match known_course with
  | None => raise (HTTPException 404 "Course not found")
  | Some _ =>
  (* Create enrollment regardless of constraints *)
  let enrollment_id := uuid4 in
  let new_enrollment :=
    Enrollment.mk enrollment_id student_id course_id semester "enrolled" now in
  modify (λ db, set_enrollments (od_set enrollment_id new_enrollment (enrollments db)) db) ;;
  add_enrollment new_enrollment ;;
  (* Update course capacity *)
  let* course := gets (λ db, courses db !! course_id) in
  match course with
  | None => raise (KeyError course_id)
  | Some course =>
  assign_enrolled_count course_id (Course.enrolled_count course + 1) ;;
  let course := Course.set_enrolled_count (Course.enrolled_count course + 1) course in
  (if binds course then _save_course course
   else raise (OverflowError "Python int too large to convert to SQLite INTEGER")) ;;
  ret [("message", "Force enrollment successful"); ("enrollment_id", enrollment_id)]
  end end.

(** ** The sample data of [_init_sample_data] *)

Definition sample_users : list User.t :=
  [ User.mk "admin1" "admin" "admin@nexus.edu" User.ADMIN "System Administrator" true;
    User.mk "faculty1" "prof_smith" "smith@nexus.edu" User.FACULTY "Dr. John Smith" true;
    User.mk "faculty2" "prof_jones" "jones@nexus.edu" User.FACULTY "Dr. Sarah Jones" true;
    User.mk "student1" "john_doe" "john@student.nexus.edu" User.STUDENT "John Doe" true;
    User.mk "student2" "jane_smith" "jane@student.nexus.edu" User.STUDENT "Jane Smith" true ].

Definition sample_courses : list Course.t :=
  [ Course.mk "cs101" "CS101" "Introduction to Programming"
      "Basic programming concepts using Python" "faculty1" "Dr. John Smith"
      30 15 "MWF 9:00-10:00" "Room 101" [] "Computer Science" 3;
    Course.mk "cs201" "CS201" "Data Structures"
      "Advanced data structures and algorithms" "faculty1" "Dr. John Smith"
      25 20 "TTh 11:00-12:30" "Room 102" ["cs101"] "Computer Science" 3;
    Course.mk "math101" "MATH101" "Calculus I"
      "Differential and integral calculus" "faculty2" "Dr. Sarah Jones"
      40 35 "MWF 10:00-11:00" "Room 201" [] "Mathematics" 4;
    Course.mk "bus101" "BUS101" "Business Fundamentals"
      "Introduction to business principles" "faculty2" "Dr. Sarah Jones"
      50 45 "TTh 2:00-3:30" "Room 301" [] "Business" 3 ].

Definition sample_enrollments (now : datetime) : list Enrollment.t :=
  [ Enrollment.mk "enr1" "student1" "cs101" "Fall 2024" "enrolled" now;
    Enrollment.mk "enr2" "student1" "math101" "Fall 2024" "enrolled" now;
    Enrollment.mk "enr3" "student2" "cs101" "Fall 2024" "enrolled" now ].

Definition sample_grades (now : datetime) : list Grade.t :=
  [ Grade.mk "grade1" "student1" "cs101" "A" "Spring 2024" "submitted" "faculty1" (Some now) ].

(** The object that [_load_data] builds from the four tables: every row is
    cached under its id (ids are primary keys, so no two rows share one). *)
Definition loaded (us : list User.t) (cs : list Course.t)
    (es : list Enrollment.t) (gs : list Grade.t) : SQLiteDatabase :=
  mkDB (list_to_map (map (λ u, (User.id u, u)) us))
       (list_to_map (map (λ c, (Course.id c, c)) cs))
       (map (λ e, (Enrollment.id e, e)) es)
       (list_to_map (map (λ g, (Grade.id g, g)) gs))
       us cs es gs.

Definition sample_db : SQLiteDatabase :=
  loaded sample_users sample_courses (sample_enrollments 0%Z) (sample_grades 0%Z).

(** * Vocabulary of the specification

    What the endpoints decide and what they leave behind, as functions and
    predicates over the store. *)

Local Open Scope list_scope.

(** What a lookup that falls back on SQLite returns: the cached object, or
    else the first row with that id. *)
Definition stored_course (db : SQLiteDatabase) (course_id : string) : option Course.t :=
  match courses db !! course_id with
  | Some c => Some c
  | None => select_course course_id (sql_courses db)
  end.

Definition stored_user (db : SQLiteDatabase) (user_id : string) : option User.t :=
  match users db !! user_id with
  | Some u => Some u
  | None => select_user user_id (sql_users db)
  end.

(** [db'] is [db] with some more rows cached in [db.courses] and [db.users]:
    the only effect of the [refresh_*_from_db] methods. *)
Record cache_ext (db db' : SQLiteDatabase) : Prop := mk_cache_ext {
  ce_enrollments : enrollments db' = enrollments db;
  ce_grades : grades db' = grades db;
  ce_sql_users : sql_users db' = sql_users db;
  ce_sql_courses : sql_courses db' = sql_courses db;
  ce_sql_enrollments : sql_enrollments db' = sql_enrollments db;
  ce_sql_grades : sql_grades db' = sql_grades db;
  ce_courses : ∀ k c, courses db !! k = Some c → courses db' !! k = Some c;
  ce_users : ∀ k u, users db !! k = Some u → users db' !! k = Some u;
  ce_stored_course : ∀ k, stored_course db' k = stored_course db k;
  ce_stored_user : ∀ k, stored_user db' k = stored_user db k
}.

(** Every row of the SQLite tables [courses] and [users] is cached, as it is
    after [_load_data]. *)
Definition cache_complete (db : SQLiteDatabase) : Prop :=
  Forall (λ row, is_Some (courses db !! Course.id row)) (sql_courses db)
  ∧ Forall (λ row, is_Some (users db !! User.id row)) (sql_users db).

(** Objects sit under their own ids. *)
Definition keys_match (db : SQLiteDatabase) : Prop :=
  map_Forall (λ k c, Course.id c = k) (courses db)
  ∧ Forall (λ ke, Enrollment.id ke.2 = ke.1) (enrollments db).

Definition completed_courses (db : SQLiteDatabase) (student_id : string) : list string :=
  student_completed_courses student_id ((map_to_list (grades db)).*2).

Definition prereq_name (db : SQLiteDatabase) (prereq : string) : string :=
  match stored_course db prereq with Some pc => Course.name pc | None => prereq end.

Definition clashes (db : SQLiteDatabase) (course : Course.t) (e : Enrollment.t) : bool :=
  match stored_course db (Enrollment.course_id e) with
  | Some enrolled_course =>
      has_time_conflict (Course.schedule course) (Course.schedule enrolled_course)
  | None => false
  end.

Definition clash_name (db : SQLiteDatabase) (e : Enrollment.t) : string :=
  match stored_course db (Enrollment.course_id e) with
  | Some enrolled_course => Course.name enrolled_course
  | None => ""
  end.

Definition existing_enrollment (request : EnrollmentRequest.t) (db : SQLiteDatabase) :=
  find (is_existing_enrollment request) (od_values (enrollments db)).

Definition first_unmet_prerequisite (request : EnrollmentRequest.t)
    (course : Course.t) (db : SQLiteDatabase) : option string :=
  find (λ p, negb (bool_decide
                     (p ∈ completed_courses db (EnrollmentRequest.student_id request))))
       (Course.prerequisites course).

Definition student_enrollments (request : EnrollmentRequest.t) (db : SQLiteDatabase) :=
  filter (λ e, is_student_enrollment request e) (od_values (enrollments db)).

Definition first_time_conflict (request : EnrollmentRequest.t)
    (course : Course.t) (db : SQLiteDatabase) : option Enrollment.t :=
  find (clashes db course) (student_enrollments request db).

Definition AlreadyEnrolled := HTTPException 400 "Already enrolled in this course".
Definition CourseFull := HTTPException 400 "Course is full".
Definition PrerequisiteNotMet (name : string) :=
  HTTPException 400 ("Prerequisite not met: " +:+ name).
Definition ScheduleConflict (name : string) :=
  HTTPException 400 ("Time conflict with " +:+ name).
Definition CourseNotFound := HTTPException 404 "Course not found".
Definition StudentNotFound := HTTPException 404 "Student not found".
Definition EnrollmentNotFound := HTTPException 404 "Enrollment not found".

Definition conflict_check (request : EnrollmentRequest.t) (course : Course.t)
    (db : SQLiteDatabase) : option exn :=
  match existing_enrollment request db with
  | Some _ => Some AlreadyEnrolled
  | None =>
    if bool_decide (Course.enrolled_count course >= Course.capacity course)%Z
    then Some CourseFull
    else match first_unmet_prerequisite request course db with
         | Some p => Some (PrerequisiteNotMet (prereq_name db p))
         | None =>
           match first_time_conflict request course db with
           | Some e => Some (ScheduleConflict (clash_name db e))
           | None => None
           end
         end
  end.

Definition enrolled_response (uuid4 : string) : response :=
  [("message", "Successfully enrolled"); ("enrollment_id", uuid4)].

Definition enroll_result (request : EnrollmentRequest.t) (uuid4 : string)
    (db : SQLiteDatabase) : outcome response :=
  match stored_course db (EnrollmentRequest.course_id request) with
  | None => Raise CourseNotFound
  | Some course =>
    match stored_user db (EnrollmentRequest.student_id request) with
    | None => Raise StudentNotFound
    | Some _ =>
      match conflict_check request course db with
      | Some e => Raise e
      | None => Return (enrolled_response uuid4)
      end
    end
  end.

Definition new_enrollment (request : EnrollmentRequest.t) (uuid4 : string)
    (now : datetime) : Enrollment.t :=
  Enrollment.mk uuid4 (EnrollmentRequest.student_id request)
    (EnrollmentRequest.course_id request) (EnrollmentRequest.semester request)
    "enrolled" now.

Definition incremented (course : Course.t) : Course.t :=
  Course.set_enrolled_count (Course.enrolled_count course + 1) course.

(** The store after the four writes that end a successful enrollment. *)
Definition committed (request : EnrollmentRequest.t) (uuid4 : string) (now : datetime)
    (course : Course.t) (db : SQLiteDatabase) : SQLiteDatabase :=
  let e := new_enrollment request uuid4 now in
  mkDB (users db)
       (<[Course.id course := incremented course]>
          (alter (Course.set_enrolled_count (Course.enrolled_count course + 1))
                 (EnrollmentRequest.course_id request) (courses db)))
       (od_set uuid4 e (od_set uuid4 e (enrollments db)))
       (grades db)
       (sql_users db)
       (insert_or_replace courses_clash (incremented course) (sql_courses db))
       (insert_or_replace enrollments_clash e (sql_enrollments db))
       (sql_grades db).

(** The student holds an Enrollment for the requested course and semester
    with status "enrolled". *)
Definition already_enrolled (request : EnrollmentRequest.t) (db : SQLiteDatabase) : Prop :=
  ∃ e, e ∈ od_values (enrollments db)
       ∧ Enrollment.student_id e = EnrollmentRequest.student_id request
       ∧ Enrollment.course_id e = EnrollmentRequest.course_id request
       ∧ Enrollment.semester e = EnrollmentRequest.semester request
       ∧ Enrollment.status e = "enrolled".

(** The student has a Grade record for the course with status "submitted"
    and a grade among A, B, C, D. *)
Definition passed (db : SQLiteDatabase) (student_id course_id : string) : Prop :=
  ∃ gid g, grades db !! gid = Some g
           ∧ Grade.student_id g = student_id
           ∧ Grade.course_id g = course_id
           ∧ Grade.status g = "submitted"
           ∧ Grade.grade g ∈ ["A"; "B"; "C"; "D"].

(** An Enrollment the student holds in the requested semester with status
    "enrolled". *)
Definition held_in_semester (request : EnrollmentRequest.t) (e : Enrollment.t) : Prop :=
  Enrollment.student_id e = EnrollmentRequest.student_id request
  ∧ Enrollment.semester e = EnrollmentRequest.semester request
  ∧ Enrollment.status e = "enrolled".

(** ** Stores used as concrete inputs *)

(** The sample data with every seat of cs201 taken (capacity 25). *)
Definition full_courses : list Course.t :=
  map (λ c, if bool_decide (Course.id c = "cs201")
            then Course.set_enrolled_count 25 c else c) sample_courses.

Definition full_db : SQLiteDatabase :=
  loaded sample_users full_courses (sample_enrollments 0%Z) (sample_grades 0%Z).

Definition request_of (student_id course_id semester : string) :=
  EnrollmentRequest.mk student_id course_id semester.

(** ** Schedules *)

Fixpoint skip_spaces (s : list ascii) : list ascii :=
  match s with
  | c :: s' => if isspace c then skip_spaces s' else s
  | [] => []
  end.

Fixpoint read_token (s : list ascii) : list ascii :=
  match s with
  | c :: s' => if isspace c then [] else c :: read_token s'
  | [] => []
  end.

(** The first whitespace-delimited token of a string: what follows the
    leading whitespace, up to the next whitespace.  It is empty for an empty
    or all-whitespace string. *)
Definition first_token (s : string) : list ascii :=
  read_token (skip_spaces (list_ascii_of_string s)).

(** Enrollment [e], held by the student in the requested semester for
    another course [other], clashes with the requested course. *)
Definition schedule_clash (request : EnrollmentRequest.t) (course : Course.t)
    (db : SQLiteDatabase) (e : Enrollment.t) (other : Course.t) : Prop :=
  e ∈ od_values (enrollments db)
  ∧ held_in_semester request e
  ∧ Enrollment.course_id e ≠ EnrollmentRequest.course_id request
  ∧ stored_course db (Enrollment.course_id e) = Some other
  ∧ has_time_conflict (Course.schedule course) (Course.schedule other) = true.

(** ** Dropping and overriding *)

Definition decremented (course : Course.t) : Course.t :=
  Course.set_enrolled_count (Z.max 0 (Course.enrolled_count course - 1)) course.

Definition dropped (e : Enrollment.t) : Enrollment.t := Enrollment.set_status "dropped" e.

(** The store after the course update of [drop_course]: nothing happens when
    [db.courses] has no entry for the course. *)
Definition after_drop_course (e : Enrollment.t) (db : SQLiteDatabase) : SQLiteDatabase :=
  match courses db !! Enrollment.course_id e with
  | Some course =>
      mkDB (users db)
           (<[Course.id course := decremented course]>
              (alter (Course.set_enrolled_count (Z.max 0 (Course.enrolled_count course - 1)))
                     (Enrollment.course_id e) (courses db)))
           (enrollments db) (grades db) (sql_users db)
           (insert_or_replace courses_clash (decremented course) (sql_courses db))
           (sql_enrollments db) (sql_grades db)
  | None => db
  end.

(** The store after a successful [drop_course] of the enrollment [e] found
    under [enrollment_id]. *)
Definition after_drop (enrollment_id : string) (e : Enrollment.t)
    (db : SQLiteDatabase) : SQLiteDatabase :=
  let db1 := after_drop_course e db in
  mkDB (users db1) (courses db1)
       (od_set (Enrollment.id e) (dropped e)
          (od_set enrollment_id (dropped e) (enrollments db1)))
       (grades db1) (sql_users db1) (sql_courses db1)
       (insert_or_replace enrollments_clash (dropped e) (sql_enrollments db1))
       (sql_grades db1).

Definition dropped_response : response := [("message", "Successfully dropped course")].

Definition forced_response (uuid4 : string) : response :=
  [("message", "Force enrollment successful"); ("enrollment_id", uuid4)].

(** The body of a well-formed override request. *)
Definition override_body (student_id course_id semester : string) : gmap string string :=
  {[ "student_id" := student_id; "course_id" := course_id; "semester" := semester ]}.

(** The store that [force_enrollment] leaves when the counter it raised does
    not fit a SQLite INTEGER: the Enrollment is stored, in the dictionary
    and in its table, and the counter is raised in [db.courses] only. *)
Definition overflowed (request : EnrollmentRequest.t) (uuid4 : string) (now : datetime)
    (course : Course.t) (db : SQLiteDatabase) : SQLiteDatabase :=
  let e := new_enrollment request uuid4 now in
  mkDB (users db)
       (alter (Course.set_enrolled_count (Course.enrolled_count course + 1))
              (EnrollmentRequest.course_id request) (courses db))
       (od_set uuid4 e (od_set uuid4 e (enrollments db)))
       (grades db)
       (sql_users db)
       (sql_courses db)
       (insert_or_replace enrollments_clash e (sql_enrollments db))
       (sql_grades db).

Definition TooLarge := OverflowError "Python int too large to convert to SQLite INTEGER".

(** A student who signed up with the auth service after the admin service
    had loaded its dictionaries: the row is in the users table and not in
    the admin service's [db.users]. *)
Definition new_student : User.t :=
  User.mk "student3" "amy_lee" "amy@student.nexus.edu" User.STUDENT "Amy Lee" true.

Definition late_signup_db : SQLiteDatabase :=
  mkDB (users sample_db) (courses sample_db) (enrollments sample_db) (grades sample_db)
       (sql_users sample_db ++ [new_student]) (sql_courses sample_db)
       (sql_enrollments sample_db) (sql_grades sample_db).

(** The sample data with the counter of cs201 at the largest SQLite
    INTEGER. *)
Definition brim_courses : list Course.t :=
  map (λ c, if bool_decide (Course.id c = "cs201")
            then Course.set_enrolled_count (2 ^ 63 - 1) c else c) sample_courses.

Definition brim_db : SQLiteDatabase :=
  loaded sample_users brim_courses (sample_enrollments 0%Z) (sample_grades 0%Z).

(** The student service's store after the admin service gave cs201 the code
    CS202 and created a course with the code CS201: the dictionaries are
    those loaded from the sample data, the tables have the two new rows. *)
Definition recoded_courses : list Course.t :=
  map (λ c, if bool_decide (Course.id c = "cs201")
            then Course.mk (Course.id c) "CS202" (Course.name c) (Course.description c)
                   (Course.instructor_id c) (Course.instructor_name c)
                   (Course.capacity c) (Course.enrolled_count c) (Course.schedule c)
                   (Course.location c) (Course.prerequisites c) (Course.department c)
                   (Course.credits c)
            else c) sample_courses
  ++ [ Course.mk "new1" "CS201" "Data Structures II" "Trees and graphs"
         "faculty1" "Dr. John Smith" 25 0 "MWF 1:00-2:00" "Room 103" []
         "Computer Science" 3 ].

Definition recoded_db : SQLiteDatabase :=
  mkDB (users sample_db) (courses sample_db) (enrollments sample_db) (grades sample_db)
       (sql_users sample_db) recoded_courses
       (sql_enrollments sample_db) (sql_grades sample_db).

(** The sample data with one more Enrollment, for a course that no longer
    exists. *)
Definition orphan_db : SQLiteDatabase :=
  loaded sample_users sample_courses
    (sample_enrollments 0%Z
     ++ [Enrollment.mk "enr9" "student2" "phys101" "Fall 2024" "enrolled" 0%Z])
    (sample_grades 0%Z).

(** ** The counter invariant *)

Definition is_enrolled_in (course_id : string) (e : Enrollment.t) : bool :=
  bool_decide (Enrollment.course_id e = course_id)
  && bool_decide (Enrollment.status e = "enrolled").

(** The number of Enrollments of [db.enrollments] for the course with status
    "enrolled". *)
Definition count_enrolled (db : SQLiteDatabase) (course_id : string) : nat :=
  length (filter (λ e, is_enrolled_in course_id e) (od_values (enrollments db))).

(** Every Course of [db.courses] has [enrolled_count] equal to the number of
    its enrolled Enrollments. *)
Definition count_invariant (db : SQLiteDatabase) : Prop :=
  map_Forall (λ _ c, Course.enrolled_count c = Z.of_nat (count_enrolled db (Course.id c)))
             (courses db).

(** The number of rows of the enrollments table for the course with status
    "enrolled". *)
Definition rows_enrolled (rows : list Enrollment.t) (course_id : string) : nat :=
  length (filter (λ e, is_enrolled_in course_id e) rows).

(** The same for the tables: every row of the courses table has
    [enrolled_count] equal to the number of its enrolled rows of the
    enrollments table. *)
Definition table_invariant (course_rows : list Course.t)
    (enrollment_rows : list Enrollment.t) : Prop :=
  Forall (λ row, Course.enrolled_count row
                 = Z.of_nat (rows_enrolled enrollment_rows (Course.id row)))
         course_rows.

(** The dictionaries of a [db] object hold what its tables hold, as they do
    after [_load_data]: objects sit under their ids, no key is there twice,
    every course row is cached as it is, and [db.enrollments] holds the rows
    of the enrollments table. *)
Definition in_step (db : SQLiteDatabase) : Prop :=
  keys_match db
  ∧ NoDup (od_keys (enrollments db))
  ∧ Forall (λ row, courses db !! Course.id row = Some row) (sql_courses db)
  ∧ sql_enrollments db ≡ₚ od_values (enrollments db).

(** ** The services

    [run_services.py] starts every service as a process of its own
    ([subprocess.Popen]).  Each process imports [shared.database], whose
    last line builds [db = SQLiteDatabase()]: the student service and the
    admin service have dictionaries of their own, over the one SQLite
    file. *)

Record dictionaries := mkDictionaries {
  d_users : gmap string User.t;
  d_courses : gmap string Course.t;
  d_enrollments : odict Enrollment.t;
  d_grades : gmap string Grade.t
}.

Record tables := mkTables {
  t_users : list User.t;
  t_courses : list Course.t;
  t_enrollments : list Enrollment.t;
  t_grades : list Grade.t
}.

Definition dictionaries_of (db : SQLiteDatabase) : dictionaries :=
  mkDictionaries (users db) (courses db) (enrollments db) (grades db).

Definition tables_of (db : SQLiteDatabase) : tables :=
  mkTables (sql_users db) (sql_courses db) (sql_enrollments db) (sql_grades db).

(** The [db] object of a process: its dictionaries, and the file. *)
Definition attach (d : dictionaries) (f : tables) : SQLiteDatabase :=
  mkDB (d_users d) (d_courses d) (d_enrollments d) (d_grades d)
       (t_users f) (t_courses f) (t_enrollments f) (t_grades f).

Record services := mkServices {
  student_service : dictionaries;
  admin_service : dictionaries;
  file : tables
}.

Inductive service := StudentService | AdminService.

Definition db_of (s : service) (sys : services) : SQLiteDatabase :=
  match s with
  | StudentService => attach (student_service sys) (file sys)
  | AdminService => attach (admin_service sys) (file sys)
  end.

(** The services after the process [s] ran an endpoint that left its [db]
    as [db']: the dictionaries of the other process are as they were. *)
Definition after_call (s : service) (db' : SQLiteDatabase) (sys : services) : services :=
  match s with
  | StudentService => mkServices (dictionaries_of db') (admin_service sys) (tables_of db')
  | AdminService => mkServices (student_service sys) (dictionaries_of db') (tables_of db')
  end.

(** The services right after their start on the same tables. *)
Definition started (us : list User.t) (cs : list Course.t)
    (es : list Enrollment.t) (gs : list Grade.t) : services :=
  let db := loaded us cs es gs in
  mkServices (dictionaries_of db) (dictionaries_of db) (tables_of db).

Inductive operation :=
| Enroll (request : EnrollmentRequest.t) (uuid4 : string) (now : datetime)
| Drop (enrollment_id : string)
| ForceEnroll (enrollment_data : gmap string string) (uuid4 : string) (now : datetime).

(** [/enroll] and [/enroll/{enrollment_id}] are routes of the student
    service, [/enrollments/override] is a route of the admin service. *)
Definition served_by (op : operation) : service :=
  match op with
  | Enroll _ _ _ | Drop _ => StudentService
  | ForceEnroll _ _ _ => AdminService
  end.

Definition endpoint (op : operation) : M response :=
  match op with
  | Enroll request uuid4 now => enroll_in_course request uuid4 now
  | Drop enrollment_id => drop_course enrollment_id
  | ForceEnroll enrollment_data uuid4 now => force_enrollment enrollment_data uuid4 now
  end.

(** An operation runs in the process that serves it, on that process's
    [db]; the operations of a sequence run one after the other. *)
Definition serve (op : operation) (sys : services) : outcome response * services :=
  let '(o, db') := endpoint op (db_of (served_by op) sys) in
  (o, after_call (served_by op) db' sys).

(** A sequence of operations, each of which succeeds. *)
Inductive successful_run : services → list operation → services → Prop :=
| successful_nil sys : successful_run sys [] sys
| successful_cons sys op r sys1 ops sys2 :
    serve op sys = (Return r, sys1) →
    successful_run sys1 ops sys2 →
    successful_run sys (op :: ops) sys2.

(** For the [db] that serves the operation: the new id of an enrollment is
    not in use; a drop is asked for an Enrollment whose status is
    "enrolled". *)
Definition regular (db : SQLiteDatabase) (op : operation) : Prop :=
  match op with
  | Enroll _ uuid4 _ | ForceEnroll _ uuid4 _ => od_get uuid4 (enrollments db) = None
  | Drop enrollment_id =>
      ∃ e, od_get enrollment_id (enrollments db) = Some e
           ∧ Enrollment.status e = "enrolled"
  end.

(** A successful run all of whose operations are regular. *)
Inductive regular_run : services → list operation → services → Prop :=
| regular_nil sys : regular_run sys [] sys
| regular_cons sys op r sys1 ops sys2 :
    regular (db_of (served_by op) sys) op →
    serve op sys = (Return r, sys1) →
    regular_run sys1 ops sys2 →
    regular_run sys (op :: ops) sys2.

(** The claim about the counters, as the specification words it: from
    services whose counters are right, in the tables and in the
    dictionaries of both services, any sequence of successful operations
    leads to tables whose counters are right. *)
Definition counters_kept (sys : services) (ops : list operation) : Prop :=
  table_invariant (t_courses (file sys)) (t_enrollments (file sys)) →
  count_invariant (db_of StudentService sys) →
  count_invariant (db_of AdminService sys) →
  ∀ sys', successful_run sys ops sys' →
          table_invariant (t_courses (file sys')) (t_enrollments (file sys')).

(** The sample data with the counters set to the numbers of enrolled
    Enrollments. *)
Definition consistent_courses : list Course.t :=
  map (λ c, Course.set_enrolled_count
              (Z.of_nat (length (filter (λ e, is_enrolled_in (Course.id c) e)
                                        (sample_enrollments 0%Z)))) c)
      sample_courses.

(** The two services, started on these tables. *)
Definition consistent_services : services :=
  started sample_users consistent_courses (sample_enrollments 0%Z) (sample_grades 0%Z).

(** The claim about enrolling, dropping and enrolling again, as the
    specification words it: the counter is back at its value before the
    first enrollment. *)
Definition counter_restored (request : EnrollmentRequest.t) (uuid4 uuid4' : string)
    (now now' : datetime) (db : SQLiteDatabase) : Prop :=
  ∀ r1 db1,
    enroll_in_course request uuid4 now db = (Return r1, db1) →
    ∃ r2 db2 r3 db3,
      drop_course uuid4 db1 = (Return r2, db2)
      ∧ enroll_in_course request uuid4' now' db2 = (Return r3, db3)
      ∧ Course.enrolled_count <$> courses db3 !! EnrollmentRequest.course_id request
        = Course.enrolled_count <$> courses db !! EnrollmentRequest.course_id request.

(** * Properties of the store *)

Section odict_facts.
Context {V : Type}.
Implicit Types (d : odict V) (k : string) (v : V).

Lemma od_get_set_eq k v d : od_get k (od_set k v d) = Some v.
Proof.
  induction d as [|[k' v'] d IH]; simpl.
  - by rewrite decide_True.
  - destruct (decide (k = k')) as [->|Hne]; simpl.
    + by rewrite decide_True.
    + by rewrite decide_False.
Qed.

Lemma od_get_set_ne k k' v d : k ≠ k' → od_get k' (od_set k v d) = od_get k' d.
Proof.
  intros Hne. induction d as [|[k0 v0] d IH]; simpl.
  - by rewrite decide_False.
  - destruct (decide (k = k0)) as [->|Hk]; simpl.
    + by rewrite !decide_False.
    + by rewrite IH.
Qed.

Lemma od_set_fresh k v d : od_get k d = None → od_set k v d = d ++ [(k, v)].
Proof.
  induction d as [|[k' v'] d IH]; simpl; [done|].
  destruct (decide (k = k')); [done|]. intros H. by rewrite IH.
Qed.

Lemma od_set_set k v v' d : od_set k v (od_set k v' d) = od_set k v d.
Proof.
  induction d as [|[k' v0] d IH]; simpl.
  - by rewrite decide_True.
  - destruct (decide (k = k')) as [->|Hk]; simpl.
    + by rewrite decide_True.
    + by rewrite decide_False, IH.
Qed.

(** Assigning to a key that is present replaces one value, in place. *)
Lemma od_set_present k v v0 d :
  od_get k d = Some v0 →
  ∃ d1 d2, d = d1 ++ (k, v0) :: d2 ∧ od_set k v d = d1 ++ (k, v) :: d2.
Proof.
  induction d as [|[k' v'] d IH]; simpl; [done|].
  destruct (decide (k = k')) as [->|Hk].
  - intros [= ->]. by exists [], d.
  - intros H. destruct (IH H) as (d1 & d2 & -> & ->).
    by exists ((k', v') :: d1), d2.
Qed.

Lemma od_get_elem_of k v d : od_get k d = Some v → v ∈ od_values d.
Proof.
  induction d as [|[k' v'] d IH]; simpl; [done|].
  destruct (decide (k = k')).
  - intros [= ->]. apply list_elem_of_here.
  - intros H. apply list_elem_of_further. by apply IH.
Qed.
End odict_facts.

Lemma cache_ext_refl db : cache_ext db db.
Proof. by constructor. Qed.

Lemma cache_ext_trans db1 db2 db3 :
  cache_ext db1 db2 → cache_ext db2 db3 → cache_ext db1 db3.
Proof.
  intros [] []. constructor; try congruence; eauto.
Qed.

Lemma select_course_Some k tbl c :
  select_course k tbl = Some c → Course.id c = k ∧ c ∈ tbl.
Proof.
  unfold select_course. intros H. apply find_some in H as [Hin Hb].
  apply bool_decide_eq_true in Hb. split; [done|]. by apply list_elem_of_In.
Qed.

Lemma select_user_Some k tbl u :
  select_user k tbl = Some u → User.id u = k ∧ u ∈ tbl.
Proof.
  unfold select_user. intros H. apply find_some in H as [Hin Hb].
  apply bool_decide_eq_true in Hb. split; [done|]. by apply list_elem_of_In.
Qed.

Lemma refresh_course_from_db_spec k db :
  ∃ db', refresh_course_from_db k db = (Return (stored_course db k), db')
         ∧ cache_ext db db'
         ∧ ∀ c, stored_course db k = Some c → courses db' !! k = Some c.
Proof.
  unfold refresh_course_from_db, stored_course.
  destruct (courses db !! k) as [c|] eqn:Hm.
  - exists db. split_and!; [done|apply cache_ext_refl|]. by intros ? [= <-].
  - destruct (select_course k (sql_courses db)) as [c|] eqn:Hs.
    + destruct (select_course_Some _ _ _ Hs) as [Hid _]. rewrite Hid.
      eexists. split_and!; [done| |].
      * constructor; simpl; try done.
        -- intros k' c' Hk'. destruct (decide (k = k')) as [->|]; [congruence|].
           by rewrite lookup_insert_ne.
        -- intros k'. unfold stored_course; simpl.
           destruct (decide (k = k')) as [<-|].
           ++ by rewrite lookup_insert_eq, Hm, Hs.
           ++ by rewrite lookup_insert_ne.
      * intros ? [= <-]. simpl. by rewrite lookup_insert_eq.
    + exists db. split_and!; [done|apply cache_ext_refl|done].
Qed.

Lemma get_user_by_id_spec k db :
  ∃ db', get_user_by_id k db = (Return (stored_user db k), db') ∧ cache_ext db db'.
Proof.
  unfold get_user_by_id, refresh_user_from_db, stored_user.
  destruct (users db !! k) as [u|] eqn:Hm.
  - exists db. split; [done|apply cache_ext_refl].
  - destruct (select_user k (sql_users db)) as [u|] eqn:Hs.
    + destruct (select_user_Some _ _ _ Hs) as [Hid _]. rewrite Hid.
      eexists. split; [done|].
      constructor; simpl; try done.
      * intros k' c' Hk'. destruct (decide (k = k')) as [->|]; [congruence|].
        by rewrite lookup_insert_ne.
      * intros k'. unfold stored_user; simpl.
        destruct (decide (k = k')) as [<-|].
        -- by rewrite lookup_insert_eq, Hm, Hs.
        -- by rewrite lookup_insert_ne.
    + exists db. split; [done|apply cache_ext_refl].
Qed.

Lemma select_course_None k tbl :
  select_course k tbl = None → ∀ row, row ∈ tbl → Course.id row ≠ k.
Proof.
  unfold select_course. intros H row Hin Hid.
  apply list_elem_of_In in Hin.
  pose proof (find_none _ _ H _ Hin) as Hb. simpl in Hb.
  by rewrite bool_decide_eq_false in Hb.
Qed.

Lemma select_user_None k tbl :
  select_user k tbl = None → ∀ row, row ∈ tbl → User.id row ≠ k.
Proof.
  unfold select_user. intros H row Hin Hid.
  apply list_elem_of_In in Hin.
  pose proof (find_none _ _ H _ Hin) as Hb. simpl in Hb.
  by rewrite bool_decide_eq_false in Hb.
Qed.

(** With a complete cache the fallback never fires: nothing changes. *)
Lemma cache_ext_complete db db' : cache_ext db db' → cache_complete db → db' = db.
Proof.
  intros Hext [Hc Hu].
  rewrite Forall_forall in Hc. rewrite Forall_forall in Hu.
  assert (courses db' = courses db) as Ec.
  { apply map_eq. intros k.
    pose proof (ce_stored_course _ _ Hext k) as Hv. unfold stored_course in Hv.
    rewrite (ce_sql_courses _ _ Hext) in Hv.
    destruct (courses db !! k) as [c|] eqn:Hk.
    - by apply (ce_courses _ _ Hext).
    - destruct (select_course k (sql_courses db)) as [row|] eqn:Hs.
      + destruct (select_course_Some _ _ _ Hs) as [<- Hin].
        destruct (Hc _ Hin) as [? ?]. congruence.
      + by destruct (courses db' !! k). }
  assert (users db' = users db) as Eu.
  { apply map_eq. intros k.
    pose proof (ce_stored_user _ _ Hext k) as Hv. unfold stored_user in Hv.
    rewrite (ce_sql_users _ _ Hext) in Hv.
    destruct (users db !! k) as [c|] eqn:Hk.
    - by apply (ce_users _ _ Hext).
    - destruct (select_user k (sql_users db)) as [row|] eqn:Hs.
      + destruct (select_user_Some _ _ _ Hs) as [<- Hin].
        destruct (Hu _ Hin) as [? ?]. congruence.
      + by destruct (users db' !! k). }
  destruct Hext. destruct db, db'; simpl in *. congruence.
Qed.

Lemma clashes_ext db db' course e :
  cache_ext db db' → clashes db' course e = clashes db course e.
Proof. intros H. unfold clashes. by rewrite (ce_stored_course _ _ H). Qed.

Lemma clash_name_ext db db' e : cache_ext db db' → clash_name db' e = clash_name db e.
Proof. intros H. unfold clash_name. by rewrite (ce_stored_course _ _ H). Qed.

Lemma prereq_name_ext db db' p : cache_ext db db' → prereq_name db' p = prereq_name db p.
Proof. intros H. unfold prereq_name. by rewrite (ce_stored_course _ _ H). Qed.

Lemma find_ext {A} (f g : A → bool) l : (∀ x, f x = g x) → find f l = find g l.
Proof. intros H. induction l as [|x l IH]; simpl; [done|]. by rewrite H, IH. Qed.

Lemma for_each_cons {A} (x : A) l body db :
  for_each (x :: l) body db
  = match body x db with
    | (Return _, db') => for_each l body db'
    | (Raise e, db') => (Raise e, db')
    end.
Proof. reflexivity. Qed.

Lemma check_prerequisite_eval completed p db :
  check_prerequisite completed p db
  = if bool_decide (p ∈ completed) then (Return tt, db)
    else (Raise (PrerequisiteNotMet (prereq_name db p)),
          snd (refresh_course_from_db p db)).
Proof.
  unfold check_prerequisite. destruct (bool_decide _); [done|].
  unfold bind.
  destruct (refresh_course_from_db_spec p db) as (db' & -> & _). reflexivity.
Qed.

Lemma check_time_conflict_eval course e db :
  check_time_conflict course e db
  = (if clashes db course e then Raise (ScheduleConflict (clash_name db e))
     else Return tt,
     snd (refresh_course_from_db (Enrollment.course_id e) db)).
Proof.
  unfold check_time_conflict, clashes, clash_name, bind.
  destruct (refresh_course_from_db_spec (Enrollment.course_id e) db) as (db' & -> & _).
  destruct (stored_course db _); [|done]. by destruct (has_time_conflict _ _).
Qed.

(** The prerequisite loop stops at the first prerequisite that is not in the
    list of completed courses; when there is none it reads nothing. *)
Lemma prerequisite_loop_spec completed prereqs db :
  match find (λ p, negb (bool_decide (p ∈ completed))) prereqs with
  | None => for_each prereqs (check_prerequisite completed) db = (Return tt, db)
  | Some p =>
      ∃ db', cache_ext db db'
             ∧ for_each prereqs (check_prerequisite completed) db
               = (Raise (PrerequisiteNotMet (prereq_name db p)), db')
  end.
Proof.
  induction prereqs as [|p prereqs IH]; [done|].
  rewrite for_each_cons, check_prerequisite_eval. simpl.
  destruct (bool_decide (p ∈ completed)) eqn:Hp; simpl.
  - apply IH.
  - destruct (refresh_course_from_db_spec p db) as (db' & Hr & Hext & _).
    exists db'. rewrite Hr. by split.
Qed.

(** The schedule loop stops at the first enrollment, in the order of the
    list, whose course is stored and clashes; when it runs to the end, the
    stored course of every enrollment of the list has been cached. *)
Lemma time_conflict_loop_spec course l db :
  ∃ db', cache_ext db db'
         ∧ for_each l (check_time_conflict course) db
           = (match find (clashes db course) l with
              | Some e => Raise (ScheduleConflict (clash_name db e))
              | None => Return tt
              end, db')
         ∧ (find (clashes db course) l = None →
            ∀ e c, e ∈ l → stored_course db (Enrollment.course_id e) = Some c →
                   courses db' !! Enrollment.course_id e = Some c).
Proof.
  revert db. induction l as [|e l IH]; intros db.
  - exists db. split_and!; [apply cache_ext_refl|done|].
    intros _ e c He. by apply elem_of_nil in He.
  - rewrite for_each_cons, check_time_conflict_eval. simpl.
    destruct (refresh_course_from_db_spec (Enrollment.course_id e) db)
      as (db1 & Hr & Hext & Hcached).
    rewrite Hr. simpl.
    destruct (clashes db course e) eqn:Hcl.
    + exists db1. by split_and!.
    + destruct (IH db1) as (db2 & Hext2 & -> & Hcaches).
      exists db2. split_and!; [by eapply cache_ext_trans| |].
      * rewrite (find_ext (clashes db1 course) (clashes db course));
          [|intros; by apply clashes_ext].
        destruct (find (clashes db course) l); [|done].
        by rewrite (clash_name_ext db db1).
      * intros Hnone e' c He' Hst.
        apply elem_of_cons in He' as [->|He'].
        -- apply (ce_courses _ _ Hext2). by apply Hcached.
        -- apply Hcaches; [|done|].
           ++ rewrite <- Hnone. apply find_ext. intros; by apply clashes_ext.
           ++ by rewrite (ce_stored_course _ _ Hext).
Qed.

(** [enroll_in_course] returns [enroll_result]; a failure leaves the store it
    started from up to cached rows, a success commits on such a store, in
    which the requested course and the stored courses of the student's
    enrollments of the semester are cached. *)
Lemma enroll_in_course_eval request uuid4 now db :
  ∃ db1, cache_ext db db1
    ∧ enroll_in_course request uuid4 now db
      = (enroll_result request uuid4 db,
         match stored_course db (EnrollmentRequest.course_id request),
               enroll_result request uuid4 db with
         | Some course, Return _ => committed request uuid4 now course db1
         | _, _ => db1
         end)
    ∧ ((∃ r, enroll_result request uuid4 db = Return r) →
       (∀ course, stored_course db (EnrollmentRequest.course_id request) = Some course →
          courses db1 !! EnrollmentRequest.course_id request = Some course)
       ∧ (∀ e c, e ∈ student_enrollments request db →
            stored_course db (Enrollment.course_id e) = Some c →
            courses db1 !! Enrollment.course_id e = Some c)).
Proof.
  unfold enroll_in_course, enroll_result.
  unfold bind at 1.
  destruct (refresh_course_from_db_spec (EnrollmentRequest.course_id request) db)
    as (dba & -> & Ha & Hca).
  destruct (stored_course db (EnrollmentRequest.course_id request)) as [course|] eqn:Hc.
  2:{ exists dba. split_and!; [done|done|]. by intros [? [=]]. }
  unfold bind at 1.
  destruct (get_user_by_id_spec (EnrollmentRequest.student_id request) dba)
    as (dbb & -> & Hb).
  rewrite (ce_stored_user _ _ Ha).
  assert (cache_ext db dbb) as Hab by (by eapply cache_ext_trans).
  destruct (stored_user db (EnrollmentRequest.student_id request)) as [student|] eqn:Hs.
  2:{ exists dbb. split_and!; [done|done|]. by intros [? [=]]. }
  unfold bind at 1, gets at 1.
  unfold conflict_check, existing_enrollment.
  rewrite (ce_enrollments _ _ Hab).
  destruct (find (is_existing_enrollment request) _) as [e0|] eqn:Hdup.
  { exists dbb. split_and!; [done|done|]. by intros [? [=]]. }
  destruct (bool_decide (Course.enrolled_count course >= Course.capacity course)%Z) eqn:Hfull.
  { exists dbb. split_and!; [done|done|]. by intros [? [=]]. }
  unfold bind at 1, gets at 1. unfold bind at 1.
  unfold first_unmet_prerequisite, completed_courses.
  rewrite (ce_grades _ _ Hab).
  pose proof (prerequisite_loop_spec
    (student_completed_courses (EnrollmentRequest.student_id request)
       ((map_to_list (grades db)).*2))
    (Course.prerequisites course) dbb) as Hloop.
  destruct (find _ (Course.prerequisites course)) as [p|] eqn:Hp.
  { destruct Hloop as (dbc & Hc' & ->).
    exists dbc. split_and!; [by eapply cache_ext_trans| |by intros [? [=]]].
    by rewrite (prereq_name_ext db dbb). }
  rewrite Hloop. clear Hloop.
  unfold bind at 1, gets at 1. unfold bind at 1.
  rewrite (ce_enrollments _ _ Hab).
  destruct (time_conflict_loop_spec course
              (filter (λ e, is_student_enrollment request e) (od_values (enrollments db)))
              dbb) as (dbd & Hd & -> & Hcaches).
  assert (cache_ext db dbd) as Had by (by eapply cache_ext_trans).
  unfold first_time_conflict, student_enrollments.
  rewrite (find_ext (clashes dbb course) (clashes db course)) in Hcaches |- *;
    [|intros; by apply clashes_ext|intros; by apply clashes_ext].
  destruct (find (clashes db course) _) as [e|] eqn:He.
  { exists dbd. split_and!; [done| |by intros [? [=]]].
    by rewrite (clash_name_ext db dbb). }
  exists dbd. split_and!; [done|reflexivity|].
  intros _. split.
  - intros ? [= <-]. apply (ce_courses _ _ Hd), (ce_courses _ _ Hb). by apply Hca.
  - intros e c Hin Hst. apply Hcaches; [done|done|].
    by rewrite (ce_stored_course _ _ Hab).
Qed.

Lemma find_Some_first {A} (f : A → bool) l x :
  find f l = Some x ↔
  ∃ l1 l2, l = l1 ++ x :: l2 ∧ f x = true ∧ Forall (λ y, f y = false) l1.
Proof.
  split.
  - induction l as [|y l IH]; simpl; [done|].
    destruct (f y) eqn:Hy.
    + intros [= ->]. by exists [], l.
    + intros H. destruct (IH H) as (l1 & l2 & -> & Hx & Hl1).
      exists (y :: l1), l2. split_and!; [done|done|by constructor].
  - intros (l1 & l2 & -> & Hx & Hl1).
    induction Hl1 as [|y l1 Hy _ IH]; simpl.
    + by rewrite Hx.
    + by rewrite Hy.
Qed.

Lemma find_None_Forall {A} (f : A → bool) l :
  find f l = None ↔ Forall (λ y, f y = false) l.
Proof.
  induction l as [|y l IH]; simpl.
  - split; [constructor|done].
  - destruct (f y) eqn:Hy.
    + split; [done|]. intros H. inversion H; congruence.
    + rewrite IH. split; [by constructor|]. by inversion 1.
Qed.

Lemma is_existing_enrollment_true request e :
  is_existing_enrollment request e = true ↔
  Enrollment.student_id e = EnrollmentRequest.student_id request
  ∧ Enrollment.course_id e = EnrollmentRequest.course_id request
  ∧ Enrollment.semester e = EnrollmentRequest.semester request
  ∧ Enrollment.status e = "enrolled".
Proof.
  unfold is_existing_enrollment.
  rewrite !andb_true_iff, !bool_decide_eq_true. tauto.
Qed.

Lemma is_student_enrollment_true request e :
  is_student_enrollment request e = true ↔ held_in_semester request e.
Proof.
  unfold is_student_enrollment, held_in_semester.
  rewrite !andb_true_iff, !bool_decide_eq_true. tauto.
Qed.

Lemma existing_enrollment_Some request db :
  is_Some (existing_enrollment request db) ↔ already_enrolled request db.
Proof.
  unfold existing_enrollment, already_enrolled. split.
  - intros [e He]. apply find_some in He as [Hin Hb].
    exists e. split; [by apply list_elem_of_In|].
    by apply is_existing_enrollment_true.
  - intros (e & Hin & Hb).
    destruct (find _ _) eqn:Hf; [done|].
    apply list_elem_of_In in Hin.
    pose proof (find_none _ _ Hf _ Hin) as Hn.
    apply is_existing_enrollment_true in Hb. congruence.
Qed.

Lemma existing_enrollment_None request db :
  existing_enrollment request db = None ↔ ¬ already_enrolled request db.
Proof.
  rewrite <- existing_enrollment_Some.
  destruct (existing_enrollment request db) as [e|].
  - split; [done|]. intros H. destruct H. by exists e.
  - split; [|done]. intros _ [? ?]. done.
Qed.

Lemma elem_of_completed_courses db student_id p :
  p ∈ completed_courses db student_id ↔ passed db student_id p.
Proof.
  unfold completed_courses, student_completed_courses, passed.
  rewrite list_elem_of_fmap. split.
  - intros (g & -> & Hg). apply list_elem_of_filter in Hg as [Hc Hin].
    apply list_elem_of_fmap in Hin as ([gid g'] & -> & Hin).
    apply elem_of_map_to_list in Hin.
    unfold is_completed_grade in Hc. apply Is_true_true in Hc.
    rewrite !andb_true_iff, !bool_decide_eq_true in Hc.
    exists gid, g'. simpl. tauto.
  - intros (gid & g & Hg & Hs & Hc & Hst & Hgr).
    exists g. split; [done|]. apply list_elem_of_filter. split.
    + unfold is_completed_grade. apply Is_true_true.
      rewrite !andb_true_iff, !bool_decide_eq_true. tauto.
    + apply list_elem_of_fmap. exists (gid, g). split; [done|].
      by apply elem_of_map_to_list.
Qed.

Lemma elem_of_student_enrollments request db e :
  e ∈ student_enrollments request db ↔
  e ∈ od_values (enrollments db) ∧ held_in_semester request e.
Proof.
  unfold student_enrollments. rewrite list_elem_of_filter.
  rewrite <- is_student_enrollment_true, Is_true_true. tauto.
Qed.

Lemma first_unmet_prerequisite_Some request course db p :
  first_unmet_prerequisite request course db = Some p ↔
  ∃ l1 l2, Course.prerequisites course = l1 ++ p :: l2
           ∧ ¬ passed db (EnrollmentRequest.student_id request) p
           ∧ Forall (passed db (EnrollmentRequest.student_id request)) l1.
Proof.
  unfold first_unmet_prerequisite. rewrite find_Some_first.
  split; intros (l1 & l2 & Hl & Hp & Hl1); exists l1, l2; (split; [done|]).
  - rewrite negb_true_iff, bool_decide_eq_false, elem_of_completed_courses in Hp.
    split; [done|]. eapply Forall_impl; [exact Hl1|]. simpl. intros q Hq.
    rewrite negb_false_iff, bool_decide_eq_true, elem_of_completed_courses in Hq. done.
  - rewrite negb_true_iff, bool_decide_eq_false, elem_of_completed_courses.
    split; [done|]. eapply Forall_impl; [exact Hl1|]. simpl. intros q Hq.
    by rewrite negb_false_iff, bool_decide_eq_true, elem_of_completed_courses.
Qed.

Lemma first_unmet_prerequisite_None request course db :
  first_unmet_prerequisite request course db = None ↔
  Forall (passed db (EnrollmentRequest.student_id request)) (Course.prerequisites course).
Proof.
  unfold first_unmet_prerequisite. rewrite find_None_Forall.
  split; intros H; (eapply Forall_impl; [exact H|]); simpl; intros q Hq.
  - rewrite negb_false_iff, bool_decide_eq_true, elem_of_completed_courses in Hq. done.
  - by rewrite negb_false_iff, bool_decide_eq_true, elem_of_completed_courses.
Qed.

(** Closed facts about concrete stores are settled by evaluation. *)
Ltac by_evaluation :=
  first [ vm_compute; reflexivity
        | apply (bool_decide_unpack _); vm_compute; exact I ].

Lemma not_already_enrolled_by_evaluation request db :
  existing_enrollment request db = None → ¬ already_enrolled request db.
Proof. apply existing_enrollment_None. Qed.

(** * No partial application *)

(** C2. An [enroll_in_course] that raises has created no Enrollment and has
    touched no [enrolled_count]: the store it leaves is the one it started
    from, up to rows of [courses] and [users] that the lookups cached, and
    it is the very same store when the cache was complete.  A request on a
    course with [enrolled_count == capacity] always raises and leaves the
    course as it was; the error is "Course is full" once the student exists
    and is not already enrolled. *)
Theorem enroll_failure_changes_nothing request uuid4 now db :
  (∀ e db', enroll_in_course request uuid4 now db = (Raise e, db') →
     cache_ext db db' ∧ (cache_complete db → db' = db))
  ∧ (∀ course,
       stored_course db (EnrollmentRequest.course_id request) = Some course →
       Course.enrolled_count course = Course.capacity course →
       ∃ e db', enroll_in_course request uuid4 now db = (Raise e, db')
                ∧ stored_course db' (EnrollmentRequest.course_id request) = Some course
                ∧ (is_Some (stored_user db (EnrollmentRequest.student_id request)) →
                   ¬ already_enrolled request db →
                   e = CourseFull)).
Proof.
  destruct (enroll_in_course_eval request uuid4 now db) as (db1 & Hext & Heq & _).
  split.
  - intros e db' H. rewrite Heq in H. injection H as Hr Hdb.
    rewrite Hr in Hdb.
    assert (db' = db1) as -> by (by destruct (stored_course db _)).
    split; [done|]. by apply cache_ext_complete.
  - intros course Hc Hfull.
    assert (∃ e, enroll_result request uuid4 db = Raise e
                 ∧ (is_Some (stored_user db (EnrollmentRequest.student_id request)) →
                    ¬ already_enrolled request db → e = CourseFull))
      as (e & He & Hwhich).
    { unfold enroll_result. rewrite Hc.
      destruct (stored_user db _) as [u|].
      2:{ eexists. split; [done|]. intros [? [=]]. }
      unfold conflict_check.
      destruct (existing_enrollment request db) as [e0|] eqn:Hdup.
      { eexists. split; [done|]. intros _ Hn.
        apply existing_enrollment_None in Hn. congruence. }
      rewrite bool_decide_eq_true_2 by lia. by eexists. }
    rewrite He, Hc in Heq. exists e, db1. split_and!; [done| |done].
    by rewrite (ce_stored_course _ _ Hext).
Qed.

Lemma enroll_failure_changes_nothing_witness :
  enroll_in_course (request_of "student2" "cs201" "Fall 2024") "u1" 7%Z full_db
  = (Raise CourseFull, full_db).
Proof.
  destruct (enroll_failure_changes_nothing
              (request_of "student2" "cs201" "Fall 2024") "u1" 7%Z full_db)
    as [Hfail Hfull].
  destruct (Hfull (Course.set_enrolled_count 25
                     (Course.mk "cs201" "CS201" "Data Structures"
                        "Advanced data structures and algorithms" "faculty1"
                        "Dr. John Smith" 25 20 "TTh 11:00-12:30" "Room 102"
                        ["cs101"] "Computer Science" 3)))
    as (e & db' & Hrun & _ & Hwhich); [by_evaluation | by_evaluation |].
  rewrite Hrun.
  destruct (Hfail e db' Hrun) as [_ Hsame].
  rewrite Hsame.
  - rewrite Hwhich; [done| |].
    + eexists. by_evaluation.
    + apply not_already_enrolled_by_evaluation. by_evaluation.
  - split; by_evaluation.
Defined.

(** * Order of the checks *)

(** C3. For an existing course and student the checks run in the order
    duplicate, capacity, prerequisites, schedule, and the first that fails
    gives the error: each line below assumes that the earlier checks pass.
    In particular a student with an unmet prerequisite who asks for a full
    course is answered "Course is full". *)
Theorem enroll_checks_in_order request uuid4 now db course student :
  stored_course db (EnrollmentRequest.course_id request) = Some course →
  stored_user db (EnrollmentRequest.student_id request) = Some student →
  let r := fst (enroll_in_course request uuid4 now db) in
  let sid := EnrollmentRequest.student_id request in
  (already_enrolled request db → r = Raise AlreadyEnrolled)
  ∧ (¬ already_enrolled request db →
     (Course.enrolled_count course >= Course.capacity course)%Z →
     r = Raise CourseFull)
  ∧ (¬ already_enrolled request db →
     (Course.enrolled_count course < Course.capacity course)%Z →
     ∀ l1 p l2, Course.prerequisites course = l1 ++ p :: l2 →
                Forall (passed db sid) l1 → ¬ passed db sid p →
                r = Raise (PrerequisiteNotMet (prereq_name db p)))
  ∧ (¬ already_enrolled request db →
     (Course.enrolled_count course < Course.capacity course)%Z →
     Forall (passed db sid) (Course.prerequisites course) →
     ∀ l1 e l2, student_enrollments request db = l1 ++ e :: l2 →
                Forall (λ e', clashes db course e' = false) l1 →
                clashes db course e = true →
                r = Raise (ScheduleConflict (clash_name db e)))
  ∧ (¬ already_enrolled request db →
     (Course.enrolled_count course < Course.capacity course)%Z →
     Forall (passed db sid) (Course.prerequisites course) →
     Forall (λ e', clashes db course e' = false) (student_enrollments request db) →
     r = Return (enrolled_response uuid4))
  ∧ (¬ already_enrolled request db →
     (∃ p, p ∈ Course.prerequisites course ∧ ¬ passed db sid p) →
     (Course.enrolled_count course >= Course.capacity course)%Z →
     r = Raise CourseFull).
Proof.
  intros Hc Hs r sid.
  destruct (enroll_in_course_eval request uuid4 now db) as (db1 & _ & Heq & _).
  subst r. rewrite Heq. simpl.
  unfold enroll_result. rewrite Hc, Hs. unfold conflict_check.
  split_and!.
  - intros Hdup. apply existing_enrollment_Some in Hdup as [e0 ->]. done.
  - intros Hn Hfull. apply existing_enrollment_None in Hn. rewrite Hn.
    by rewrite bool_decide_eq_true_2.
  - intros Hn Hfree l1 p l2 Hl Hl1 Hp.
    apply existing_enrollment_None in Hn. rewrite Hn.
    rewrite bool_decide_eq_false_2 by lia.
    assert (first_unmet_prerequisite request course db = Some p) as ->; [|done].
    apply first_unmet_prerequisite_Some. by exists l1, l2.
  - intros Hn Hfree Hall l1 e l2 Hl Hl1 He.
    apply existing_enrollment_None in Hn. rewrite Hn.
    rewrite bool_decide_eq_false_2 by lia.
    apply first_unmet_prerequisite_None in Hall. rewrite Hall.
    assert (first_time_conflict request course db = Some e) as ->; [|done].
    apply find_Some_first. by exists l1, l2.
  - intros Hn Hfree Hall Hnone.
    apply existing_enrollment_None in Hn. rewrite Hn.
    rewrite bool_decide_eq_false_2 by lia.
    apply first_unmet_prerequisite_None in Hall. rewrite Hall.
    assert (first_time_conflict request course db = None) as ->; [|done].
    by apply find_None_Forall.
  - intros Hn _ Hfull. apply existing_enrollment_None in Hn. rewrite Hn.
    by rewrite bool_decide_eq_true_2.
Qed.

Lemma already_enrolled_by_evaluation request db e :
  existing_enrollment request db = Some e → already_enrolled request db.
Proof. intros H. apply existing_enrollment_Some. by exists e. Qed.

Lemma passed_by_evaluation db student_id p :
  bool_decide (p ∈ completed_courses db student_id) = true → passed db student_id p.
Proof. rewrite bool_decide_eq_true. apply elem_of_completed_courses. Qed.

Lemma not_passed_by_evaluation db student_id p :
  bool_decide (p ∈ completed_courses db student_id) = false → ¬ passed db student_id p.
Proof. rewrite bool_decide_eq_false, elem_of_completed_courses. done. Qed.

Lemma enroll_checks_in_order_witness :
  fst (enroll_in_course (request_of "student1" "cs101" "Fall 2024") "u1" 7%Z sample_db)
  = Raise AlreadyEnrolled
  ∧ fst (enroll_in_course (request_of "student2" "cs201" "Fall 2024") "u1" 7%Z full_db)
    = Raise CourseFull
  ∧ fst (enroll_in_course (request_of "student2" "cs201" "Fall 2024") "u1" 7%Z sample_db)
    = Raise (PrerequisiteNotMet "Introduction to Programming")
  ∧ fst (enroll_in_course (request_of "student2" "math101" "Fall 2024") "u1" 7%Z sample_db)
    = Raise (ScheduleConflict "Introduction to Programming")
  ∧ fst (enroll_in_course (request_of "student1" "cs201" "Fall 2024") "u1" 7%Z sample_db)
    = Return (enrolled_response "u1").
Proof.
  split_and!.
  - edestruct (enroll_checks_in_order (request_of "student1" "cs101" "Fall 2024")
                 "u1" 7%Z sample_db) as (H & _); [by_evaluation | by_evaluation |].
    apply H. eapply already_enrolled_by_evaluation. by_evaluation.
  - edestruct (enroll_checks_in_order (request_of "student2" "cs201" "Fall 2024")
                 "u1" 7%Z full_db) as (_ & _ & _ & _ & _ & H);
      [by_evaluation | by_evaluation |].
    apply H.
    + apply not_already_enrolled_by_evaluation. by_evaluation.
    + exists "cs101". split; [by_evaluation|].
      apply not_passed_by_evaluation. by_evaluation.
    + simpl. lia.
  - edestruct (enroll_checks_in_order (request_of "student2" "cs201" "Fall 2024")
                 "u1" 7%Z sample_db) as (_ & _ & H & _);
      [by_evaluation | by_evaluation |].
    rewrite (H ltac:(apply not_already_enrolled_by_evaluation; by_evaluation)
               ltac:(simpl; lia) [] "cs101" []); [by_evaluation|done|constructor|].
    apply not_passed_by_evaluation. by_evaluation.
  - edestruct (enroll_checks_in_order (request_of "student2" "math101" "Fall 2024")
                 "u1" 7%Z sample_db) as (_ & _ & _ & H & _);
      [by_evaluation | by_evaluation |].
    rewrite (H ltac:(apply not_already_enrolled_by_evaluation; by_evaluation)
               ltac:(simpl; lia) ltac:(constructor)
               [] (Enrollment.mk "enr3" "student2" "cs101" "Fall 2024" "enrolled" 0%Z) []);
      [by_evaluation|by_evaluation|constructor|by_evaluation].
  - edestruct (enroll_checks_in_order (request_of "student1" "cs201" "Fall 2024")
                 "u1" 7%Z sample_db) as (_ & _ & _ & _ & H & _);
      [by_evaluation | by_evaluation |].
    apply H.
    + apply not_already_enrolled_by_evaluation. by_evaluation.
    + simpl. lia.
    + repeat constructor. apply passed_by_evaluation. by_evaluation.
    + apply find_None_Forall. by_evaluation.
Defined.

(** * Schedule conflicts *)

Lemma split_from_token tok s :
  tok ≠ [] → head (split_from tok s) = Some (tok ++ read_token s).
Proof.
  revert tok. induction s as [|c s IH]; intros tok Htok; simpl.
  - destruct tok; [done|]. by rewrite app_nil_r.
  - destruct (isspace c).
    + destruct tok; [done|]. by rewrite app_nil_r.
    + rewrite IH by (by destruct tok). by rewrite <- app_assoc.
Qed.

Lemma split_from_nil s :
  default [] (head (split_from [] s)) = read_token (skip_spaces s).
Proof.
  induction s as [|c s IH]; simpl; [done|].
  destruct (isspace c) eqn:Hc; [done|].
  simpl. rewrite Hc. by rewrite split_from_token.
Qed.

Lemma first_token_split s :
  list_ascii_of_string (match split s with d :: _ => d | [] => "" end) = first_token s.
Proof.
  unfold split, first_token. rewrite <- split_from_nil.
  destruct (split_from [] (list_ascii_of_string s)); simpl; [done|].
  apply list_ascii_of_string_of_list_ascii.
Qed.

Lemma read_token_spec s :
  ∃ rest, s = read_token s ++ rest
          ∧ Forall (λ c, isspace c = false) (read_token s)
          ∧ (rest = [] ∨ ∃ c r, rest = c :: r ∧ isspace c = true).
Proof.
  induction s as [|c s (rest & Hs & Htok & Hrest)]; simpl.
  - exists []. split_and!; [done|constructor|by left].
  - destruct (isspace c) eqn:Hc.
    + exists (c :: s). split_and!; [done|constructor|right; eauto].
    + exists rest. split_and!; [simpl; congruence|by constructor|done].
Qed.

Lemma skip_spaces_spec s :
  ∃ ws, s = ws ++ skip_spaces s
        ∧ Forall (λ c, isspace c = true) ws
        ∧ (skip_spaces s = [] ∨ ∃ c r, skip_spaces s = c :: r ∧ isspace c = false).
Proof.
  induction s as [|c s (ws & Hs & Hws & Hrest)]; simpl.
  - exists []. split_and!; [done|constructor|by left].
  - destruct (isspace c) eqn:Hc.
    + exists (c :: ws). split_and!; [simpl; congruence|by constructor|done].
    + exists []. split_and!; [done|constructor|right; eauto].
Qed.

(** [first_token] is the first whitespace-delimited token. *)
Lemma first_token_spec s :
  ∃ ws rest,
    list_ascii_of_string s = ws ++ first_token s ++ rest
    ∧ Forall (λ c, isspace c = true) ws
    ∧ Forall (λ c, isspace c = false) (first_token s)
    ∧ (rest = [] ∨ ∃ c r, rest = c :: r ∧ isspace c = true).
Proof.
  unfold first_token.
  destruct (skip_spaces_spec (list_ascii_of_string s)) as (ws & Hs & Hws & _).
  destruct (read_token_spec (skip_spaces (list_ascii_of_string s)))
    as (rest & Ht & Htok & Hrest).
  exists ws, rest. split_and!; try done. by rewrite <- Ht.
Qed.

Lemma first_token_blank s :
  Forall (λ c, isspace c = true) (list_ascii_of_string s) → first_token s = [].
Proof.
  unfold first_token. induction 1 as [|c l Hc _ IH]; simpl; [done|]. by rewrite Hc.
Qed.

Lemma has_time_conflict_first_token s1 s2 :
  has_time_conflict s1 s2 = true ↔ ∃ ch, ch ∈ first_token s1 ∧ ch ∈ first_token s2.
Proof.
  unfold has_time_conflict. rewrite !first_token_split.
  rewrite existsb_exists. split.
  - intros (ch & Hin & Hb). exists ch.
    split; [by apply list_elem_of_In|by apply bool_decide_eq_true in Hb].
  - intros (ch & H1 & H2). exists ch.
    split; [by apply list_elem_of_In|by apply bool_decide_eq_true].
Qed.

Lemma clashes_true request course db e :
  ¬ already_enrolled request db →
  e ∈ student_enrollments request db →
  clashes db course e = true ↔ ∃ other, schedule_clash request course db e other.
Proof.
  intros Hn He. apply elem_of_student_enrollments in He as [Hin Hheld].
  unfold clashes, schedule_clash. split.
  - destruct (stored_course db (Enrollment.course_id e)) as [other|]; [|done].
    intros Hh. exists other. split_and!; try done.
    intros Hsame. apply Hn. exists e. destruct Hheld as (? & ? & ?). done.
  - intros (other & _ & _ & _ & -> & Hh). done.
Qed.

(** C7. [has_time_conflict] holds exactly when a character of the first
    whitespace-delimited token of the first schedule occurs in the first
    token of the second ([first_token], which is empty for an empty or
    all-whitespace schedule).  Once the duplicate, capacity and prerequisite checks pass,
    [enroll_in_course] applies it to the requested course against the stored
    course of every other Enrollment the student holds in that semester with
    status "enrolled": it raises "Time conflict with ..." when one of them
    clashes and succeeds when none does. *)
Theorem schedule_conflict_check :
  (∀ s1 s2, has_time_conflict s1 s2 = true
            ↔ ∃ ch, ch ∈ first_token s1 ∧ ch ∈ first_token s2)
  ∧ (∀ s, ∃ ws rest,
        list_ascii_of_string s = ws ++ first_token s ++ rest
        ∧ Forall (λ c, isspace c = true) ws
        ∧ Forall (λ c, isspace c = false) (first_token s)
        ∧ (rest = [] ∨ ∃ c r, rest = c :: r ∧ isspace c = true))
  ∧ (∀ s, Forall (λ c, isspace c = true) (list_ascii_of_string s) → first_token s = [])
  ∧ (∀ request uuid4 now db course student,
       stored_course db (EnrollmentRequest.course_id request) = Some course →
       stored_user db (EnrollmentRequest.student_id request) = Some student →
       ¬ already_enrolled request db →
       (Course.enrolled_count course < Course.capacity course)%Z →
       Forall (passed db (EnrollmentRequest.student_id request))
              (Course.prerequisites course) →
       let r := fst (enroll_in_course request uuid4 now db) in
       ((∀ e other, ¬ schedule_clash request course db e other) →
        r = Return (enrolled_response uuid4))
       ∧ ((∃ e other, schedule_clash request course db e other) →
          ∃ e other, schedule_clash request course db e other
                     ∧ r = Raise (ScheduleConflict (Course.name other)))).
Proof.
  split_and!.
  - apply has_time_conflict_first_token.
  - apply first_token_spec.
  - apply first_token_blank.
  - intros request uuid4 now db course student Hc Hs Hn Hfree Hall r.
    destruct (enroll_in_course_eval request uuid4 now db) as (db1 & _ & Heq & _).
    subst r. rewrite Heq. simpl.
    unfold enroll_result. rewrite Hc, Hs. unfold conflict_check.
    rewrite (proj2 (existing_enrollment_None request db) Hn).
    rewrite bool_decide_eq_false_2 by lia.
    rewrite (proj2 (first_unmet_prerequisite_None request course db) Hall).
    unfold first_time_conflict.
    destruct (find (clashes db course) (student_enrollments request db)) as [e|] eqn:Hf.
    + apply find_some in Hf as [Hin Hcl]. apply list_elem_of_In in Hin.
      apply (clashes_true request course db e Hn Hin) in Hcl as [other Hcl].
      split.
      * intros Hno. destruct (Hno e other Hcl).
      * intros _. exists e, other. split; [done|].
        unfold clash_name. destruct Hcl as (_ & _ & _ & -> & _). done.
    + split; [done|].
      intros (e & other & Hcl). exfalso.
      assert (e ∈ student_enrollments request db) as Hin.
      { apply elem_of_student_enrollments. destruct Hcl as (? & ? & _). done. }
      assert (clashes db course e = true) as Htrue.
      { apply (clashes_true request course db e Hn Hin). by exists other. }
      apply list_elem_of_In in Hin.
      pose proof (find_none _ _ Hf _ Hin). congruence.
Qed.

Lemma no_schedule_clash_by_evaluation request course db :
  ¬ already_enrolled request db →
  first_time_conflict request course db = None →
  ∀ e other, ¬ schedule_clash request course db e other.
Proof.
  intros Hn Hf e other Hcl.
  assert (e ∈ student_enrollments request db) as Hin.
  { apply elem_of_student_enrollments. destruct Hcl as (? & ? & _). done. }
  assert (clashes db course e = true) as Htrue.
  { apply (clashes_true request course db e Hn Hin). by exists other. }
  apply list_elem_of_In in Hin.
  pose proof (find_none _ _ Hf _ Hin). congruence.
Qed.

Lemma schedule_conflict_check_witness :
  (∃ e other,
     schedule_clash (request_of "student2" "math101" "Fall 2024")
       (Course.mk "math101" "MATH101" "Calculus I" "Differential and integral calculus"
          "faculty2" "Dr. Sarah Jones" 40 35 "MWF 10:00-11:00" "Room 201" []
          "Mathematics" 4) sample_db e other
     ∧ fst (enroll_in_course (request_of "student2" "math101" "Fall 2024") "u1" 7%Z
              sample_db)
       = Raise (ScheduleConflict (Course.name other)))
  ∧ fst (enroll_in_course (request_of "student1" "cs201" "Fall 2024") "u1" 7%Z sample_db)
    = Return (enrolled_response "u1").
Proof.
  destruct schedule_conflict_check as (_ & _ & _ & Hcheck).
  split.
  - edestruct (Hcheck (request_of "student2" "math101" "Fall 2024") "u1" 7%Z sample_db)
      as [_ Hclash].
    + by_evaluation.
    + by_evaluation.
    + apply not_already_enrolled_by_evaluation. by_evaluation.
    + simpl. lia.
    + constructor.
    + apply Hclash.
      exists (Enrollment.mk "enr3" "student2" "cs101" "Fall 2024" "enrolled" 0%Z).
      eexists. split_and!.
      * apply (od_get_elem_of "enr3"). by_evaluation.
      * by repeat split.
      * done.
      * by_evaluation.
      * by_evaluation.
  - edestruct (Hcheck (request_of "student1" "cs201" "Fall 2024") "u1" 7%Z sample_db)
      as [Hnone _].
    + by_evaluation.
    + by_evaluation.
    + apply not_already_enrolled_by_evaluation. by_evaluation.
    + simpl. lia.
    + repeat constructor. apply passed_by_evaluation. by_evaluation.
    + apply Hnone. apply no_schedule_clash_by_evaluation.
      * apply not_already_enrolled_by_evaluation. by_evaluation.
      * by_evaluation.
Defined.

(** * Prerequisites *)

(** C8. A course id is in the list of completed courses that
    [enroll_in_course] builds exactly when the student has a Grade record
    for it with status "submitted" and a grade among A, B, C, D.  Once the
    duplicate and capacity checks pass, the first id of
    [course.prerequisites] that is not completed makes the request fail with
    "Prerequisite not met: " followed by the name of that course, or by the
    id itself when no such course is stored; no Enrollment is created. *)
Theorem prerequisite_check :
  (∀ db student_id p,
     p ∈ student_completed_courses student_id ((map_to_list (grades db)).*2)
     ↔ passed db student_id p)
  ∧ (∀ request uuid4 now db course student l1 p l2,
       stored_course db (EnrollmentRequest.course_id request) = Some course →
       stored_user db (EnrollmentRequest.student_id request) = Some student →
       ¬ already_enrolled request db →
       (Course.enrolled_count course < Course.capacity course)%Z →
       Course.prerequisites course = l1 ++ p :: l2 →
       Forall (passed db (EnrollmentRequest.student_id request)) l1 →
       ¬ passed db (EnrollmentRequest.student_id request) p →
       ∃ db', enroll_in_course request uuid4 now db
              = (Raise (HTTPException 400
                   ("Prerequisite not met: " +:+
                    match stored_course db p with
                    | Some pc => Course.name pc
                    | None => p
                    end)), db')
              ∧ enrollments db' = enrollments db).
Proof.
  split.
  - intros db student_id p. apply elem_of_completed_courses.
  - intros request uuid4 now db course student l1 p l2 Hc Hs Hn Hfree Hl Hl1 Hp.
    destruct (enroll_in_course_eval request uuid4 now db) as (db1 & Hext & Heq & _).
    exists db1. split; [|apply Hext].
    rewrite Heq. unfold enroll_result. rewrite Hc, Hs. unfold conflict_check.
    rewrite (proj2 (existing_enrollment_None request db) Hn).
    rewrite bool_decide_eq_false_2 by lia.
    assert (first_unmet_prerequisite request course db = Some p) as ->.
    { apply first_unmet_prerequisite_Some. by exists l1, l2. }
    reflexivity.
Qed.

Lemma prerequisite_check_witness :
  ∃ db', enroll_in_course (request_of "student2" "cs201" "Fall 2024") "u1" 7%Z sample_db
         = (Raise (HTTPException 400 "Prerequisite not met: Introduction to Programming"),
            db')
         ∧ enrollments db' = enrollments sample_db.
Proof.
  destruct prerequisite_check as [_ Hcheck].
  edestruct Hcheck with (request := request_of "student2" "cs201" "Fall 2024")
                        (uuid4 := "u1") (now := 7%Z) (db := sample_db)
                        (l1 := @nil string) (p := "cs101") (l2 := @nil string)
    as (db' & Hrun & Hsame).
  - by_evaluation.
  - by_evaluation.
  - apply not_already_enrolled_by_evaluation. by_evaluation.
  - simpl. lia.
  - by_evaluation.
  - constructor.
  - apply not_passed_by_evaluation. by_evaluation.
  - exists db'. split; [|done]. rewrite Hrun. by_evaluation.
Defined.

(** * Evaluation of [drop_course] and [force_enrollment] *)

Lemma drop_course_eval enrollment_id db :
  drop_course enrollment_id db
  = match od_get enrollment_id (enrollments db) with
    | None => (Raise EnrollmentNotFound, db)
    | Some e => (Return dropped_response, after_drop enrollment_id e db)
    end.
Proof.
  unfold drop_course, bind, gets. simpl.
  destruct (od_get enrollment_id (enrollments db)) as [e|] eqn:He; [|done].
  unfold after_drop, after_drop_course.
  destruct (courses db !! Enrollment.course_id e) as [course|] eqn:Hc; simpl.
  - unfold assign_status, modify. simpl. rewrite He. reflexivity.
  - unfold assign_status, modify. simpl. rewrite He. reflexivity.
Qed.

Lemma force_enrollment_eval data uuid4 now db student_id course_id semester :
  data !! "student_id" = Some student_id →
  data !! "course_id" = Some course_id →
  data !! "semester" = Some semester →
  force_enrollment data uuid4 now db
  = match users db !! student_id, courses db !! course_id with
    | None, _ => (Raise StudentNotFound, db)
    | Some _, None => (Raise CourseNotFound, db)
    | Some _, Some course =>
        if binds (incremented course)
        then (Return (forced_response uuid4),
              committed (request_of student_id course_id semester) uuid4 now course db)
        else (Raise TooLarge,
              overflowed (request_of student_id course_id semester) uuid4 now course db)
    end.
Proof.
  intros Hs Hc Hm.
  unfold force_enrollment, getitem, bind. rewrite Hs, Hc, Hm. simpl.
  destruct (users db !! student_id) as [u|] eqn:Hu.
  2:{ rewrite bool_decide_eq_false_2; [done|]. by intros [? ?]. }
  rewrite bool_decide_eq_true_2 by eauto. simpl.
  destruct (courses db !! course_id) as [course|] eqn:Hco; [|done].
  simpl. rewrite Hco. unfold incremented.
  by destruct (binds (Course.set_enrolled_count (Course.enrolled_count course + 1) course)).
Qed.

(** * The override *)

(** C4. [force_enrollment] fails on requests for which the claim has it
    succeed.  It takes a student for absent as soon as [db.users] of the
    admin service has no entry, without the look into the users table that
    [get_user_by_id] makes for [enroll_in_course]: student3, whose row is in
    the table, is refused with "Student not found", and nothing is written,
    while [enroll_in_course] enrolls the same student in the same course.
    And with the counter of the course at the largest SQLite INTEGER it
    raises [OverflowError] once the Enrollment is stored and the counter of
    [db.courses] is raised, the course row being left as it was. *)
Theorem force_enrollment_refuses_stored_student :
  stored_user late_signup_db "student3" = Some new_student
  ∧ is_Some (stored_course late_signup_db "cs101")
  ∧ force_enrollment (override_body "student3" "cs101" "Fall 2024") "u1" 7%Z late_signup_db
    = (Raise (HTTPException 404 "Student not found"), late_signup_db)
  ∧ (∃ db', enroll_in_course (request_of "student3" "cs101" "Fall 2024") "u1" 7%Z
              late_signup_db
            = (Return (enrolled_response "u1"), db'))
  ∧ (∃ db', force_enrollment (override_body "student2" "cs201" "Fall 2024") "u1" 7%Z brim_db
            = (Raise (OverflowError "Python int too large to convert to SQLite INTEGER"), db')
            ∧ od_get "u1" (enrollments db')
              = Some (Enrollment.mk "u1" "student2" "cs201" "Fall 2024" "enrolled" 7%Z)
            ∧ Course.enrolled_count <$> courses db' !! "cs201" = Some (2 ^ 63)%Z
            ∧ sql_courses db' = sql_courses brim_db).
Proof.
  split_and!.
  - by_evaluation.
  - eexists. by_evaluation.
  - by_evaluation.
  - eexists. by_evaluation.
  - eexists. split_and!; by_evaluation.
Qed.

(** * Dropping *)

Lemma after_drop_get enrollment_id e db :
  od_get enrollment_id (enrollments (after_drop enrollment_id e db)) = Some (dropped e).
Proof.
  unfold after_drop. simpl.
  destruct (decide (Enrollment.id e = enrollment_id)) as [->|Hne].
  - apply od_get_set_eq.
  - rewrite od_get_set_ne by done. apply od_get_set_eq.
Qed.




(** C10. When the Enrollment exists and [db.courses] has no entry for its
    course, [drop_course] still succeeds: the enrollment gets status
    "dropped" and no course is written, in the dictionary or in SQLite. *)
Theorem drop_without_course enrollment_id db e :
  od_get enrollment_id (enrollments db) = Some e →
  courses db !! Enrollment.course_id e = None →
  ∃ db', drop_course enrollment_id db = (Return dropped_response, db')
         ∧ od_get enrollment_id (enrollments db') = Some (Enrollment.set_status "dropped" e)
         ∧ courses db' = courses db
         ∧ sql_courses db' = sql_courses db.
Proof.
  intros He Hc. exists (after_drop enrollment_id e db). split_and!.
  - by rewrite drop_course_eval, He.
  - apply after_drop_get.
  - unfold after_drop, after_drop_course. by rewrite Hc.
  - unfold after_drop, after_drop_course. by rewrite Hc.
Qed.

Lemma drop_without_course_witness :
  ∃ db', drop_course "enr9" orphan_db = (Return dropped_response, db')
         ∧ Enrollment.status <$> od_get "enr9" (enrollments db') = Some "dropped"
         ∧ courses db' = courses orphan_db.
Proof.
  edestruct (drop_without_course "enr9" orphan_db) as (db' & Hrun & Hst & Hc & _);
    [by_evaluation | by_evaluation |].
  exists db'. split_and!; [done| |done]. by rewrite Hst.
Defined.

(** * What a successful enrollment writes *)

Lemma enroll_result_Return request uuid4 db r :
  enroll_result request uuid4 db = Return r →
  ∃ course student,
    stored_course db (EnrollmentRequest.course_id request) = Some course
    ∧ stored_user db (EnrollmentRequest.student_id request) = Some student
    ∧ existing_enrollment request db = None
    ∧ (Course.enrolled_count course < Course.capacity course)%Z
    ∧ first_unmet_prerequisite request course db = None
    ∧ first_time_conflict request course db = None
    ∧ r = enrolled_response uuid4.
Proof.
  unfold enroll_result, conflict_check.
  destruct (stored_course db _) as [course|]; [|done].
  destruct (stored_user db _) as [student|]; [|done].
  destruct (existing_enrollment request db) eqn:Hdup; [done|].
  destruct (bool_decide _) eqn:Hfull; [done|].
  apply bool_decide_eq_false in Hfull.
  destruct (first_unmet_prerequisite request course db) eqn:Hpre; [done|].
  destruct (first_time_conflict request course db) eqn:Htime; [done|].
  intros [= <-]. exists course, student. split_and!; try done; lia.
Qed.

Lemma enroll_result_Return_intro request uuid4 db course student :
  stored_course db (EnrollmentRequest.course_id request) = Some course →
  stored_user db (EnrollmentRequest.student_id request) = Some student →
  existing_enrollment request db = None →
  (Course.enrolled_count course < Course.capacity course)%Z →
  first_unmet_prerequisite request course db = None →
  first_time_conflict request course db = None →
  enroll_result request uuid4 db = Return (enrolled_response uuid4).
Proof.
  intros Hc Hs Hdup Hfree Hpre Htime.
  unfold enroll_result, conflict_check. rewrite Hc, Hs, Hdup, Hpre, Htime.
  by rewrite bool_decide_eq_false_2 by lia.
Qed.

Lemma stored_course_id db k c :
  keys_match db → stored_course db k = Some c → Course.id c = k.
Proof.
  intros [Hk _]. unfold stored_course.
  destruct (courses db !! k) as [c'|] eqn:Hm.
  - intros [= <-]. by apply (Hk k c').
  - intros Hs. by apply select_course_Some in Hs as [? _].
Qed.

(** A successful run, taken apart. *)
Lemma enroll_in_course_success request uuid4 now db r db' :
  enroll_in_course request uuid4 now db = (Return r, db') →
  ∃ course student db1,
    cache_ext db db1
    ∧ db' = committed request uuid4 now course db1
    ∧ r = enrolled_response uuid4
    ∧ stored_course db (EnrollmentRequest.course_id request) = Some course
    ∧ stored_user db (EnrollmentRequest.student_id request) = Some student
    ∧ existing_enrollment request db = None
    ∧ (Course.enrolled_count course < Course.capacity course)%Z
    ∧ first_unmet_prerequisite request course db = None
    ∧ first_time_conflict request course db = None
    ∧ courses db1 !! EnrollmentRequest.course_id request = Some course
    ∧ (∀ e c, e ∈ student_enrollments request db →
         stored_course db (Enrollment.course_id e) = Some c →
         courses db1 !! Enrollment.course_id e = Some c).
Proof.
  intros Hrun.
  destruct (enroll_in_course_eval request uuid4 now db) as (db1 & Hext & Heq & Hcached).
  rewrite Heq in Hrun. injection Hrun as Hr Hdb.
  destruct (enroll_result_Return _ _ _ _ Hr)
    as (course & student & Hc & Hs & Hdup & Hfree & Hpre & Htime & ->).
  rewrite Hc, Hr in Hdb.
  destruct Hcached as [Hcc Hce]; [by eexists|].
  exists course, student, db1. split_and!; try done. by apply Hcc.
Qed.

Lemma insert_alter_same {A} (f : A → A) (k : string) (x : A) (m : gmap string A) :
  <[k := x]> (alter f k m) = <[k := x]> m.
Proof.
  apply map_eq. intros k'. destruct (decide (k = k')) as [<-|Hne].
  - by rewrite !lookup_insert_eq.
  - rewrite !lookup_insert_ne by done. by rewrite lookup_alter_ne.
Qed.

(** A row of another course goes when it carries the code of the row that
    is written, and only then. *)
Lemma select_course_insert_or_replace_other k row tbl :
  Course.id row ≠ k →
  (∀ r, r ∈ tbl → Course.course_code r = Course.course_code row →
        Course.id r = Course.id row) →
  select_course k (insert_or_replace courses_clash row tbl) = select_course k tbl.
Proof.
  intros Hk Hcode. unfold select_course, insert_or_replace.
  induction tbl as [|r tbl IH]; simpl.
  - by rewrite bool_decide_eq_false_2.
  - assert (∀ r', r' ∈ tbl → Course.course_code r' = Course.course_code row →
                  Course.id r' = Course.id row) as Htl.
    { intros r' Hr'. apply Hcode. by apply list_elem_of_further. }
    destruct (bool_decide (Course.id r = k)) eqn:Hr.
    + apply bool_decide_eq_true in Hr.
      rewrite filter_cons_True; [simpl; by rewrite bool_decide_eq_true_2|].
      unfold courses_clash.
      rewrite (bool_decide_eq_false_2 (Course.id row = Course.id r)) by congruence.
      rewrite bool_decide_eq_false_2; [done|].
      intros Hc. symmetry in Hc. apply Hcode in Hc; [congruence|apply list_elem_of_here].
    + destruct (decide (negb (courses_clash row r))) as [Hkeep|Hgo].
      * rewrite filter_cons_True by done. simpl. rewrite Hr. by apply IH.
      * rewrite filter_cons_False by done. by apply IH.
Qed.

Lemma insert_or_replace_keeps row tbl r :
  r ∈ tbl → Course.id r ≠ Course.id row → Course.course_code r ≠ Course.course_code row →
  r ∈ insert_or_replace courses_clash row tbl.
Proof.
  intros Hin Hid Hcode. unfold insert_or_replace. apply elem_of_app. left.
  apply list_elem_of_filter. split; [|done].
  unfold courses_clash.
  rewrite (bool_decide_eq_false_2 (Course.id row = Course.id r)) by congruence.
  by rewrite bool_decide_eq_false_2 by congruence.
Qed.

(** C9, as the code has it.  A successful [enroll_in_course] whose new id is
    not in use, on a store whose objects sit under their ids:
    [db.enrollments] gains exactly the new record, with the requested
    student, course and semester and status "enrolled"; the requested course
    is the stored one with [enrolled_count] one higher and every other field
    as it was; every other entry of [db.courses] and every entry of
    [db.users] is as before or a copy of its SQLite row that a lookup
    cached, and every user is stored as before; grades are not written.  In
    SQLite the enrollment and the course are written with INSERT OR REPLACE
    and the other tables are not written.  A course row with another id
    stays unless it carries the course code of the course that is written:
    when no such row carries that code, every other course row stays and
    every other course is stored as before. *)
Theorem successful_enroll_frame request uuid4 now db r db' :
  keys_match db →
  od_get uuid4 (enrollments db) = None →
  enroll_in_course request uuid4 now db = (Return r, db') →
  let cid := EnrollmentRequest.course_id request in
  let e := Enrollment.mk uuid4 (EnrollmentRequest.student_id request) cid
             (EnrollmentRequest.semester request) "enrolled" now in
  ∃ course,
    stored_course db cid = Some course
    ∧ r = enrolled_response uuid4
    ∧ enrollments db' = enrollments db ++ [(uuid4, e)]
    ∧ courses db' !! cid
      = Some (Course.set_enrolled_count (Course.enrolled_count course + 1) course)
    ∧ (∀ k c, k ≠ cid → courses db !! k = Some c → courses db' !! k = Some c)
    ∧ (∀ k c, k ≠ cid → courses db' !! k = Some c → stored_course db k = Some c)
    ∧ (∀ k u, users db !! k = Some u → users db' !! k = Some u)
    ∧ (∀ k u, users db' !! k = Some u → stored_user db k = Some u)
    ∧ (∀ k, stored_user db' k = stored_user db k)
    ∧ grades db' = grades db
    ∧ sql_users db' = sql_users db
    ∧ sql_grades db' = sql_grades db
    ∧ sql_enrollments db' = insert_or_replace enrollments_clash e (sql_enrollments db)
    ∧ sql_courses db'
      = insert_or_replace courses_clash
          (Course.set_enrolled_count (Course.enrolled_count course + 1) course)
          (sql_courses db)
    ∧ (∀ row, row ∈ sql_courses db → Course.id row ≠ cid →
         Course.course_code row ≠ Course.course_code course → row ∈ sql_courses db')
    ∧ ((∀ row, row ∈ sql_courses db →
          Course.course_code row = Course.course_code course → Course.id row = cid) →
       (∀ row, row ∈ sql_courses db → Course.id row ≠ cid → row ∈ sql_courses db')
       ∧ (∀ k, k ≠ cid → stored_course db' k = stored_course db k))
    ∧ (cache_complete db →
       courses db'
       = <[cid := Course.set_enrolled_count (Course.enrolled_count course + 1) course]>
           (courses db)
       ∧ users db' = users db).
Proof.
  intros Hkeys Hfresh Hrun cid e.
  destruct (enroll_in_course_success _ _ _ _ _ _ Hrun)
    as (course & student & db1 & Hext & -> & -> & Hc & _ & _ & _ & _ & _ & Hcc & _).
  pose proof (stored_course_id _ _ _ Hkeys Hc) as Hid.
  exists course. unfold committed. simpl. rewrite Hid.
  fold cid. rewrite insert_alter_same.
  split_and!; try done.
  - rewrite od_set_set, (ce_enrollments _ _ Hext). by apply od_set_fresh.
  - by rewrite lookup_insert_eq.
  - intros k c Hk Hkc. rewrite lookup_insert_ne by done. by apply (ce_courses _ _ Hext).
  - intros k c Hk Hkc. rewrite lookup_insert_ne in Hkc by done.
    rewrite <- (ce_stored_course _ _ Hext). unfold stored_course. by rewrite Hkc.
  - apply (ce_users _ _ Hext).
  - intros k u Hku. rewrite <- (ce_stored_user _ _ Hext). unfold stored_user. by rewrite Hku.
  - intros k. rewrite <- (ce_stored_user _ _ Hext). reflexivity.
  - apply Hext.
  - apply Hext.
  - apply Hext.
  - by rewrite (ce_sql_enrollments _ _ Hext).
  - by rewrite (ce_sql_courses _ _ Hext).
  - intros row Hin Hrid Hcode. rewrite (ce_sql_courses _ _ Hext).
    apply insert_or_replace_keeps; simpl; subst cid; congruence.
  - intros Hcode. split.
    + intros row Hin Hrid. rewrite (ce_sql_courses _ _ Hext).
      apply insert_or_replace_keeps; simpl; [done|subst cid; congruence|].
      intros Hsame. apply Hrid. by apply Hcode.
    + intros k Hk. rewrite <- (ce_stored_course _ _ Hext k).
      unfold stored_course. simpl. rewrite lookup_insert_ne by done.
      destruct (courses db1 !! k); [done|].
      rewrite (ce_sql_courses _ _ Hext).
      apply select_course_insert_or_replace_other; simpl; [subst cid; congruence|].
      intros r Hr Hsame. rewrite Hid. by apply Hcode.
  - intros Hcomplete. rewrite (cache_ext_complete _ _ Hext Hcomplete). done.
Qed.

Lemma successful_enroll_frame_witness :
  ∃ r db',
    enroll_in_course (request_of "student1" "cs201" "Fall 2024") "u1" 7%Z sample_db
    = (Return r, db')
    ∧ enrollments db'
      = enrollments sample_db
        ++ [("u1", Enrollment.mk "u1" "student1" "cs201" "Fall 2024" "enrolled" 7%Z)]
    ∧ Course.enrolled_count <$> courses db' !! "cs201" = Some 21%Z
    ∧ courses db' !! "cs101" = courses sample_db !! "cs101".
Proof.
  destruct (enroll_in_course (request_of "student1" "cs201" "Fall 2024") "u1" 7%Z
              sample_db) as [o db'] eqn:Hrun.
  assert (o = Return (enrolled_response "u1")) as ->.
  { change o with (fst (o, db')). rewrite <- Hrun. by_evaluation. }
  exists (enrolled_response "u1"), db'. split; [done|].
  destruct (successful_enroll_frame (request_of "student1" "cs201" "Fall 2024")
              "u1" 7%Z sample_db (enrolled_response "u1") db')
    as (course & Hc & _ & He & Hcount & Hother & _).
  - by_evaluation.
  - by_evaluation.
  - exact Hrun.
  - split_and!.
    + exact He.
    + unfold request_of in Hcount. simpl in Hcount. rewrite Hcount.
      vm_compute in Hc. injection Hc as <-. reflexivity.
    + symmetry. destruct (courses sample_db !! "cs101") as [c|] eqn:Hk.
      * symmetry. by apply Hother.
      * by vm_compute in Hk.
Defined.

(** The student service enrolls student1 in cs201 from its copy of the
    course, which still has the code CS201: the course new1, which has that
    code in the table, is stored before the enrollment and is gone after
    it. *)
Lemma successful_enroll_deletes_course_row :
  keys_match recoded_db
  ∧ od_get "u1" (enrollments recoded_db) = None
  ∧ is_Some (stored_course recoded_db "new1")
  ∧ ∃ db', enroll_in_course (request_of "student1" "cs201" "Fall 2024") "u1" 7%Z recoded_db
           = (Return (enrolled_response "u1"), db')
           ∧ stored_course db' "new1" = None
           ∧ Course.course_code <$> select_course "cs201" (sql_courses recoded_db)
             = Some "CS202"
           ∧ Course.course_code <$> select_course "cs201" (sql_courses db') = Some "CS201".
Proof.
  split_and!.
  - by_evaluation.
  - by_evaluation.
  - eexists. by_evaluation.
  - eexists. split_and!; by_evaluation.
Qed.

(** * Enroll, drop, enroll again *)

Lemma od_values_set_elem {V} k (v e : V) (d : odict V) :
  e ∈ od_values (od_set k v d) → e = v ∨ e ∈ od_values d.
Proof.
  induction d as [|[k' v'] d IH]; simpl.
  - intros H. apply list_elem_of_singleton in H. by left.
  - destruct (decide (k = k')) as [->|Hne]; simpl.
    + intros H. apply elem_of_cons in H as [->|H]; [by left|].
      right. by apply list_elem_of_further.
    + intros H. apply elem_of_cons in H as [->|H].
      * right. apply list_elem_of_here.
      * destruct (IH H) as [->|H']; [by left|].
        right. by apply list_elem_of_further.
Qed.

Lemma select_course_insert_or_replace_None k row tbl :
  select_course k tbl = None → Course.id row ≠ k →
  select_course k (insert_or_replace courses_clash row tbl) = None.
Proof.
  intros Hnone Hrow. unfold select_course. apply find_None_Forall.
  apply Forall_forall. intros r Hr. apply bool_decide_eq_false.
  unfold insert_or_replace in Hr. apply elem_of_app in Hr as [Hr|Hr].
  - apply list_elem_of_filter in Hr as [_ Hr].
    by apply (select_course_None _ _ Hnone).
  - apply list_elem_of_singleton in Hr as ->. done.
Qed.

Lemma is_existing_enrollment_dropped request e :
  is_existing_enrollment request (dropped e) = false.
Proof.
  destruct (is_existing_enrollment request (dropped e)) eqn:H; [|done].
  apply is_existing_enrollment_true in H as (_ & _ & _ & H). done.
Qed.

Lemma set_enrolled_count_same c :
  Course.set_enrolled_count (Course.enrolled_count c) c = c.
Proof. by destruct c. Qed.

Lemma decremented_incremented course :
  (0 <= Course.enrolled_count course)%Z → decremented (incremented course) = course.
Proof.
  intros H. unfold decremented, incremented. destruct course; simpl in *.
  unfold Course.set_enrolled_count; simpl. f_equal. lia.
Qed.

Lemma committed_course_lookup request uuid4 now course db :
  Course.id course = EnrollmentRequest.course_id request →
  courses (committed request uuid4 now course db) !! EnrollmentRequest.course_id request
  = Some (incremented course).
Proof. intros Hid. unfold committed. simpl. rewrite Hid. apply lookup_insert_eq. Qed.

(** C6, as the code has it.  On a store whose objects sit under their ids and
    for a course whose counter is not negative: when [enroll_in_course]
    succeeds, dropping the enrollment it created and enrolling again for the
    same student, course and semester both succeed, and the counter ends
    where the first enrollment left it, one above its value before the
    first enrollment (the drop brings it back, the second enrollment adds
    one again). *)
Theorem enroll_drop_enroll request uuid4 uuid4' now now' db r db1 course :
  keys_match db →
  stored_course db (EnrollmentRequest.course_id request) = Some course →
  (0 <= Course.enrolled_count course)%Z →
  enroll_in_course request uuid4 now db = (Return r, db1) →
  let cid := EnrollmentRequest.course_id request in
  ∃ db2 db3,
    r = enrolled_response uuid4
    ∧ drop_course uuid4 db1 = (Return dropped_response, db2)
    ∧ enroll_in_course request uuid4' now' db2 = (Return (enrolled_response uuid4'), db3)
    ∧ Course.enrolled_count <$> courses db1 !! cid = Some (Course.enrolled_count course + 1)%Z
    ∧ Course.enrolled_count <$> courses db2 !! cid = Some (Course.enrolled_count course)
    ∧ Course.enrolled_count <$> courses db3 !! cid = Some (Course.enrolled_count course + 1)%Z.
Proof.
  intros Hkeys Hc Hpos Hrun cid.
  destruct (enroll_in_course_success _ _ _ _ _ _ Hrun)
    as (course' & student & dbc & Hext & -> & -> & Hc' & Hs & Hdup & Hfree & Hpre
        & Htime & Hcc & Hce).
  assert (course' = course) as -> by congruence. clear Hc'.
  pose proof (stored_course_id _ _ _ Hkeys Hc) as Hid. fold cid in Hid, Hcc, Hc.
  set (e := new_enrollment request uuid4 now).
  set (db1 := committed request uuid4 now course dbc).
  assert (od_get uuid4 (enrollments db1) = Some e) as Hget.
  { unfold db1, committed. simpl. apply od_get_set_eq. }
  assert (courses db1 !! cid = Some (incremented course)) as Hc1.
  { by apply committed_course_lookup. }
  set (db2 := after_drop uuid4 e db1).
  (* the store after the drop *)
  assert (courses db2 = <[cid := course]> (courses dbc)) as Hcourses2.
  { unfold db2, after_drop, after_drop_course.
    change (Enrollment.course_id e) with cid. rewrite Hc1. simpl.
    change (Course.id course) with (Course.id course). rewrite Hid.
    fold (decremented (incremented course)).
    rewrite (decremented_incremented course Hpos).
    fold cid. by rewrite !insert_alter_same, insert_insert_eq. }
  assert (enrollments db2 = od_set uuid4 (dropped e) (enrollments db)) as Henr2.
  { unfold db2, after_drop, after_drop_course.
    change (Enrollment.course_id e) with cid. rewrite Hc1. simpl.
    by rewrite !od_set_set, (ce_enrollments _ _ Hext). }
  assert (users db2 = users dbc ∧ sql_users db2 = sql_users dbc ∧ grades db2 = grades db)
    as (Husers2 & Hsqlusers2 & Hgrades2).
  { unfold db2, after_drop, after_drop_course.
    change (Enrollment.course_id e) with cid. rewrite Hc1. simpl.
    split_and!; [done|done|apply Hext]. }
  assert (sql_courses db2
          = insert_or_replace courses_clash (decremented (incremented course))
              (insert_or_replace courses_clash (incremented course) (sql_courses db)))
    as Hsql2.
  { unfold db2, after_drop, after_drop_course.
    change (Enrollment.course_id e) with cid. rewrite Hc1. simpl.
    by rewrite (ce_sql_courses _ _ Hext). }
  (* the checks of the second enrollment *)
  assert (stored_course db2 cid = Some course) as Hst2.
  { unfold stored_course. by rewrite Hcourses2, lookup_insert_eq. }
  assert (stored_user db2 (EnrollmentRequest.student_id request) = Some student) as Hsu2.
  { rewrite <- Hs, <- (ce_stored_user _ _ Hext).
    unfold stored_user. by rewrite Husers2, Hsqlusers2. }
  assert (existing_enrollment request db2 = None) as Hdup2.
  { unfold existing_enrollment in *. apply find_None_Forall, Forall_forall.
    intros e' He'. rewrite Henr2 in He'.
    apply od_values_set_elem in He' as [->|He'].
    - apply is_existing_enrollment_dropped.
    - rewrite find_None_Forall, Forall_forall in Hdup. by apply Hdup. }
  assert (first_unmet_prerequisite request course db2 = None) as Hpre2.
  { rewrite <- Hpre. unfold first_unmet_prerequisite, completed_courses.
    by rewrite Hgrades2. }
  assert (first_time_conflict request course db2 = None) as Htime2.
  { unfold first_time_conflict in *. apply find_None_Forall, Forall_forall.
    intros e' He'.
    apply elem_of_student_enrollments in He' as [Hin Hheld].
    rewrite Henr2 in Hin. apply od_values_set_elem in Hin as [->|Hin].
    { destruct Hheld as (_ & _ & Hst). done. }
    assert (e' ∈ student_enrollments request db) as Hin'.
    { by apply elem_of_student_enrollments. }
    rewrite find_None_Forall, Forall_forall in Htime.
    pose proof (Htime e' Hin') as Hno.
    assert (Enrollment.course_id e' ≠ cid) as Hother.
    { intros Hsame. apply (proj1 (existing_enrollment_None request db) Hdup).
      exists e'. destruct Hheld as (? & ? & ?). done. }
    unfold clashes in *.
    destruct (stored_course db (Enrollment.course_id e')) as [c|] eqn:Hk.
    - assert (stored_course db2 (Enrollment.course_id e') = Some c) as ->; [|done].
      unfold stored_course. rewrite Hcourses2, lookup_insert_ne by done.
      by rewrite (Hce e' c Hin' Hk).
    - assert (stored_course db2 (Enrollment.course_id e') = None) as ->; [|done].
      pose proof (ce_stored_course _ _ Hext (Enrollment.course_id e')) as Hkc.
      rewrite Hk in Hkc. unfold stored_course in Hk, Hkc |- *.
      rewrite Hcourses2, lookup_insert_ne by done.
      destruct (courses dbc !! Enrollment.course_id e'); [done|].
      destruct (courses db !! Enrollment.course_id e'); [done|].
      rewrite Hsql2.
      apply select_course_insert_or_replace_None;
        [apply select_course_insert_or_replace_None; [done|]|];
        simpl; congruence. }
  (* run it *)
  destruct (enroll_in_course_eval request uuid4' now' db2) as (db2c & Hext2 & Heq2 & Hcached2).
  rewrite (enroll_result_Return_intro request uuid4' db2 course student) in Heq2, Hcached2
    by done.
  unfold cid in Hst2. rewrite Hst2 in Heq2.
  destruct Hcached2 as [Hcc2 _]; [by eexists|].
  exists db2, (committed request uuid4' now' course db2c). split_and!.
  - done.
  - by rewrite drop_course_eval, Hget.
  - exact Heq2.
  - by rewrite Hc1.
  - by rewrite Hcourses2, lookup_insert_eq.
  - unfold cid. by rewrite committed_course_lookup.
Qed.

Lemma enroll_drop_enroll_witness :
  ∃ db1 db2 db3,
    enroll_in_course (request_of "student1" "cs201" "Fall 2024") "u1" 7%Z sample_db
    = (Return (enrolled_response "u1"), db1)
    ∧ drop_course "u1" db1 = (Return dropped_response, db2)
    ∧ enroll_in_course (request_of "student1" "cs201" "Fall 2024") "u2" 8%Z db2
      = (Return (enrolled_response "u2"), db3)
    ∧ Course.enrolled_count <$> courses db3 !! "cs201" = Some 21%Z.
Proof.
  destruct (enroll_in_course (request_of "student1" "cs201" "Fall 2024") "u1" 7%Z
              sample_db) as [o db1] eqn:Hrun.
  assert (o = Return (enrolled_response "u1")) as ->.
  { change o with (fst (o, db1)). rewrite <- Hrun. by_evaluation. }
  edestruct (enroll_drop_enroll (request_of "student1" "cs201" "Fall 2024")
               "u1" "u2" 7%Z 8%Z sample_db (enrolled_response "u1") db1)
    as (db2 & db3 & _ & Hdrop & Hagain & _ & _ & Hcount).
  - by_evaluation.
  - by_evaluation.
  - simpl. lia.
  - exact Hrun.
  - exists db1, db2, db3. split_and!; [done|done|done|exact Hcount].
Defined.

(** The counter is not back at its value before the first enrollment: it
    was 20 and ends at 21. *)
Lemma enroll_drop_enroll_counter_not_restored :
  ¬ counter_restored (request_of "student1" "cs201" "Fall 2024") "u1" "u2" 7%Z 8%Z
      sample_db.
Proof.
  intros Hclaim.
  edestruct Hclaim as (r2 & db2 & r3 & db3 & Hdrop & Hagain & Hsame); [by_evaluation|].
  vm_compute in Hdrop. injection Hdrop as <- <-.
  vm_compute in Hagain. injection Hagain as <- <-.
  vm_compute in Hsame. discriminate.
Qed.

(** * The counter invariant *)

Lemma od_get_elem_of_pair {V} k (v : V) (d : odict V) : od_get k d = Some v → (k, v) ∈ d.
Proof.
  induction d as [|[k' v'] d IH]; simpl; [done|].
  destruct (decide (k = k')) as [->|].
  - intros [= ->]. apply list_elem_of_here.
  - intros H. apply list_elem_of_further. by apply IH.
Qed.

Lemma is_enrolled_in_true k e :
  is_enrolled_in k e = true ↔ Enrollment.course_id e = k ∧ Enrollment.status e = "enrolled".
Proof.
  unfold is_enrolled_in. by rewrite andb_true_iff, !bool_decide_eq_true.
Qed.

Lemma count_singleton k e :
  length (filter (λ e, is_enrolled_in k e) [e])
  = if is_enrolled_in k e then 1%nat else 0%nat.
Proof.
  destruct (is_enrolled_in k e) eqn:H.
  - rewrite filter_cons_True; [done|]. simpl. by rewrite H.
  - rewrite filter_cons_False; [done|]. simpl. rewrite H. by intros [].
Qed.

Lemma count_middle k (l1 l2 : list Enrollment.t) e :
  length (filter (λ e, is_enrolled_in k e) (l1 ++ e :: l2))
  = (length (filter (λ e, is_enrolled_in k e) l1)
     + (if is_enrolled_in k e then 1 else 0)
     + length (filter (λ e, is_enrolled_in k e) l2))%nat.
Proof.
  change (e :: l2) with ([e] ++ l2).
  rewrite !filter_app, !length_app, count_singleton. lia.
Qed.

Lemma count_enrolled_committed request uuid4 now course db k :
  od_get uuid4 (enrollments db) = None →
  count_enrolled (committed request uuid4 now course db) k
  = (count_enrolled db k
     + if decide (EnrollmentRequest.course_id request = k) then 1 else 0)%nat.
Proof.
  intros Hfresh. unfold count_enrolled, committed. simpl.
  rewrite od_set_set, (od_set_fresh _ _ _ Hfresh).
  unfold od_values. rewrite map_app, filter_app, length_app. simpl.
  rewrite count_singleton. f_equal.
  destruct (decide (EnrollmentRequest.course_id request = k)) as [Hk|Hk].
  - rewrite (proj2 (is_enrolled_in_true k _)); done.
  - destruct (is_enrolled_in k _) eqn:H; [|done].
    apply is_enrolled_in_true in H as [H _]. done.
Qed.

Lemma after_drop_course_enrollments e db :
  enrollments (after_drop_course e db) = enrollments db.
Proof. unfold after_drop_course. by destruct (courses db !! _). Qed.

Lemma count_enrolled_after_drop enrollment_id e db k :
  od_get enrollment_id (enrollments db) = Some e →
  Enrollment.id e = enrollment_id →
  Enrollment.status e = "enrolled" →
  count_enrolled db k
  = (count_enrolled (after_drop enrollment_id e db) k
     + if decide (Enrollment.course_id e = k) then 1 else 0)%nat.
Proof.
  intros Hget Hid Hst. unfold count_enrolled, after_drop. simpl.
  rewrite after_drop_course_enrollments, Hid, od_set_set.
  destruct (od_set_present enrollment_id (dropped e) e _ Hget) as (d1 & d2 & Hd & ->).
  rewrite Hd. unfold od_values. rewrite !map_app. simpl. rewrite !count_middle.
  assert (is_enrolled_in k (dropped e) = false) as ->.
  { destruct (is_enrolled_in k (dropped e)) eqn:H; [|done].
    apply is_enrolled_in_true in H as [_ H]. done. }
  destruct (decide (Enrollment.course_id e = k)) as [Hk|Hk].
  - rewrite (proj2 (is_enrolled_in_true k e)) by done. lia.
  - destruct (is_enrolled_in k e) eqn:H; [|lia].
    apply is_enrolled_in_true in H as [H _]. done.
Qed.

Lemma insert_or_replace_elem {R} (clash : R → R → bool) row tbl r :
  r ∈ insert_or_replace clash row tbl → r = row ∨ (r ∈ tbl ∧ clash row r = false).
Proof.
  unfold insert_or_replace. intros H. apply elem_of_app in H as [H|H].
  - right. apply list_elem_of_filter in H as [Hc H]. split; [done|].
    destruct (clash row r); [destruct Hc|reflexivity].
  - left. by apply list_elem_of_singleton in H.
Qed.

Lemma od_get_None_keys {V} k (d : odict V) : od_get k d = None → k ∉ od_keys d.
Proof.
  unfold od_keys. induction d as [|[k' v] d IH]; simpl.
  - intros _ H. by apply elem_of_nil in H.
  - destruct (decide (k = k')) as [->|Hne]; [done|].
    intros H Hin. apply elem_of_cons in Hin as [->|Hin]; [done|]. by apply IH.
Qed.

Lemma od_keys_set_present {V} k (v v0 : V) (d : odict V) :
  od_get k d = Some v0 → od_keys (od_set k v d) = od_keys d.
Proof.
  intros H. destruct (od_set_present k v v0 d H) as (d1 & d2 & Hd & ->).
  rewrite Hd. unfold od_keys. by rewrite !map_app.
Qed.

Lemma value_id_in_keys (d : odict Enrollment.t) e :
  Forall (λ ke : string * Enrollment.t, Enrollment.id ke.2 = ke.1) d →
  e ∈ od_values d → Enrollment.id e ∈ od_keys d.
Proof.
  intros Hk He. unfold od_values in He.
  apply list_elem_of_In, in_map_iff in He as ([k v] & <- & Hin).
  apply list_elem_of_In in Hin. rewrite Forall_forall in Hk.
  pose proof (Hk _ Hin) as Hid. simpl in *. rewrite Hid.
  unfold od_keys. apply list_elem_of_In, in_map_iff. exists (k, v).
  split; [done|]. by apply list_elem_of_In.
Qed.

Lemma filter_Forall_id {A} (P : A → Prop) `{∀ x, Decision (P x)} (l : list A) :
  Forall P l → filter P l = l.
Proof.
  induction 1 as [|x l Hx Hl IH]; [done|]. rewrite filter_cons_True by done. by rewrite IH.
Qed.

(** INSERT OR REPLACE of an enrollment row whose id is new adds the row. *)
Lemma insert_or_replace_fresh (e : Enrollment.t) rows :
  (∀ r, r ∈ rows → Enrollment.id r ≠ Enrollment.id e) →
  insert_or_replace enrollments_clash e rows = rows ++ [e].
Proof.
  intros Hne. unfold insert_or_replace. f_equal.
  apply filter_Forall_id, Forall_forall. intros r Hr.
  unfold enrollments_clash. rewrite bool_decide_eq_false_2; [done|].
  intros Heq. by apply (Hne r Hr).
Qed.

(** INSERT OR REPLACE of an enrollment row whose id is that of one row
    replaces that row. *)
Lemma insert_or_replace_present (e e' : Enrollment.t) rows v1 v2 :
  Enrollment.id e' = Enrollment.id e →
  rows ≡ₚ v1 ++ e :: v2 →
  (∀ r, r ∈ v1 ++ v2 → Enrollment.id r ≠ Enrollment.id e) →
  insert_or_replace enrollments_clash e' rows ≡ₚ v1 ++ e' :: v2.
Proof.
  intros Hid Hp Hne. unfold insert_or_replace.
  etrans; [apply Permutation_app_tail, (filter_Permutation _ _ _ Hp)|].
  rewrite filter_app, filter_cons_False, <- filter_app.
  2:{ unfold enrollments_clash. rewrite bool_decide_eq_true_2 by done. by intros []. }
  rewrite filter_Forall_id.
  - rewrite <- app_assoc. apply Permutation_app_head. symmetry.
    apply Permutation_cons_append.
  - apply Forall_forall. intros r Hr.
    unfold enrollments_clash. rewrite bool_decide_eq_false_2; [done|].
    rewrite Hid. intros Heq. by apply (Hne r Hr).
Qed.

Lemma fmap_fst_map {A B} (f : A → string) (g : A → B) (l : list A) :
  (map (λ x, (f x, g x)) l).*1 = map f l.
Proof. induction l as [|x l IH]; [done|]. simpl. by rewrite <- IH. Qed.

(** What [_load_data] builds from tables whose ids are primary keys is in
    step with them. *)
Lemma loaded_in_step us cs es gs :
  NoDup (map Course.id cs) → NoDup (map Enrollment.id es) →
  in_step (loaded us cs es gs).
Proof.
  intros Hcs Hes. unfold in_step, keys_match, loaded. simpl. split_and!.
  - intros k c Hk. apply elem_of_list_to_map_2 in Hk.
    apply list_elem_of_In, in_map_iff in Hk as (c' & [= <- <-] & _). done.
  - apply Forall_forall. intros [k e] Hin.
    apply list_elem_of_In, in_map_iff in Hin as (e' & [= <- <-] & _). done.
  - unfold od_keys. rewrite map_map. exact Hes.
  - apply Forall_forall. intros row Hrow. apply elem_of_list_to_map_1.
    + by rewrite fmap_fst_map.
    + apply list_elem_of_In, in_map_iff. exists row. split; [done|].
      by apply list_elem_of_In.
  - unfold od_values. rewrite map_map. simpl. by rewrite map_id.
Qed.

(** In a store that is in step with its tables the counters of the table are
    right when those of the dictionary are. *)
Lemma in_step_table_invariant db :
  in_step db → count_invariant db →
  table_invariant (sql_courses db) (sql_enrollments db).
Proof.
  intros (_ & _ & Hrows & Hperm) Hinv. unfold table_invariant.
  rewrite Forall_forall in Hrows. apply Forall_forall. intros row Hrow.
  pose proof (Hinv _ _ (Hrows row Hrow)) as Hn. simpl in Hn. rewrite Hn.
  unfold rows_enrolled, count_enrolled. f_equal. apply Permutation_length.
  symmetry. exact (filter_Permutation _ _ _ Hperm).
Qed.

(** A lookup caches nothing in a store that is in step with its tables. *)
Lemma cache_ext_in_step db db' :
  cache_ext db db' → in_step db → courses db' = courses db.
Proof.
  intros Hext (_ & _ & Hrows & _). rewrite Forall_forall in Hrows.
  apply map_eq. intros k.
  pose proof (ce_stored_course _ _ Hext k) as Hv. unfold stored_course in Hv.
  rewrite (ce_sql_courses _ _ Hext) in Hv.
  destruct (courses db !! k) as [c|] eqn:Hk.
  - by apply (ce_courses _ _ Hext).
  - destruct (select_course k (sql_courses db)) as [row|] eqn:Hs.
    + destruct (select_course_Some _ _ _ Hs) as [<- Hin].
      rewrite (Hrows _ Hin) in Hk. done.
    + by destruct (courses db' !! k).
Qed.

Lemma in_step_same db db' :
  courses db' = courses db → enrollments db' = enrollments db →
  sql_courses db' = sql_courses db → sql_enrollments db' = sql_enrollments db →
  in_step db → count_invariant db → in_step db' ∧ count_invariant db'.
Proof.
  intros Hc He Hsc Hse Hstep Hinv.
  unfold in_step, keys_match, count_invariant, count_enrolled in *.
  rewrite Hc, He, Hsc, Hse. by split.
Qed.

(** The writes of a successful enrollment, by either path, keep the store in
    step with its tables and the counters right. *)
Lemma committed_preserves request uuid4 now course db :
  in_step db → count_invariant db →
  courses db !! EnrollmentRequest.course_id request = Some course →
  od_get uuid4 (enrollments db) = None →
  in_step (committed request uuid4 now course db)
  ∧ count_invariant (committed request uuid4 now course db).
Proof.
  intros ([Hkc Hke] & Hnd & Hrows & Hperm) Hinv Hc Hfresh.
  pose proof (Hkc _ _ Hc) as Hid. simpl in Hid.
  rewrite Forall_forall in Hrows.
  assert (courses (committed request uuid4 now course db)
          = <[EnrollmentRequest.course_id request := incremented course]> (courses db))
    as Hcourses.
  { unfold committed. simpl. by rewrite Hid, insert_alter_same. }
  assert (enrollments (committed request uuid4 now course db)
          = enrollments db ++ [(uuid4, new_enrollment request uuid4 now)]) as Henr.
  { unfold committed. simpl. by rewrite od_set_set, (od_set_fresh _ _ _ Hfresh). }
  split; [split_and!|].
  - split.
    + rewrite Hcourses. intros k c Hk.
      destruct (decide (EnrollmentRequest.course_id request = k)) as [<-|Hne].
      * rewrite lookup_insert_eq in Hk. injection Hk as <-. exact Hid.
      * rewrite lookup_insert_ne in Hk by done. by apply (Hkc k c).
    + rewrite Henr. apply Forall_app. split; [done|]. by repeat constructor.
  - rewrite Henr. unfold od_keys. rewrite map_app. simpl.
    apply NoDup_app. split_and!; [exact Hnd| |apply NoDup_singleton].
    intros k Hk Hin. apply list_elem_of_singleton in Hin as ->.
    by apply (od_get_None_keys _ _ Hfresh).
  - rewrite Hcourses. apply Forall_forall. intros row Hrow.
    unfold committed in Hrow. simpl in Hrow.
    apply insert_or_replace_elem in Hrow as [->|[Hrow Hclash]].
    + simpl. rewrite Hid. apply lookup_insert_eq.
    + unfold courses_clash in Hclash. apply orb_false_iff in Hclash as [Hne _].
      apply bool_decide_eq_false in Hne. simpl in Hne.
      rewrite lookup_insert_ne by congruence. by apply Hrows.
  - rewrite Henr. unfold committed. simpl.
    rewrite insert_or_replace_fresh.
    + unfold od_values. rewrite map_app. simpl. by apply Permutation_app_tail.
    + intros r Hr Heq. simpl in Heq.
      apply (od_get_None_keys _ _ Hfresh). rewrite <- Heq.
      apply value_id_in_keys; [done|]. by rewrite <- Hperm.
  - unfold count_invariant. rewrite Hcourses. intros k c Hk.
    rewrite count_enrolled_committed by done.
    destruct (decide (EnrollmentRequest.course_id request = k)) as [<-|Hne].
    + rewrite lookup_insert_eq in Hk. injection Hk as <-. simpl.
      rewrite Hid, decide_True by done.
      pose proof (Hinv _ _ Hc) as Hn. simpl in Hn. rewrite Hid in Hn. lia.
    + rewrite lookup_insert_ne in Hk by done.
      pose proof (Hinv _ _ Hk) as Hn. simpl in Hn.
      rewrite (Hkc _ _ Hk), decide_False by done. rewrite (Hkc _ _ Hk) in Hn. lia.
Qed.

(** Dropping an Enrollment whose status is "enrolled" does the same. *)
Lemma after_drop_preserves enrollment_id e db :
  in_step db → count_invariant db →
  od_get enrollment_id (enrollments db) = Some e →
  Enrollment.status e = "enrolled" →
  in_step (after_drop enrollment_id e db)
  ∧ count_invariant (after_drop enrollment_id e db).
Proof.
  intros ([Hkc Hke] & Hnd & Hrows & Hperm) Hinv Hget Hst.
  rewrite Forall_forall in Hrows.
  assert (Enrollment.id e = enrollment_id) as Hid.
  { rewrite Forall_forall in Hke.
    apply (Hke (enrollment_id, e)). by apply od_get_elem_of_pair. }
  assert (enrollments (after_drop enrollment_id e db)
          = od_set enrollment_id (dropped e) (enrollments db)) as Henr.
  { unfold after_drop. simpl.
    by rewrite after_drop_course_enrollments, Hid, od_set_set. }
  assert (sql_enrollments (after_drop enrollment_id e db)
          = insert_or_replace enrollments_clash (dropped e) (sql_enrollments db)) as Hsqle.
  { unfold after_drop, after_drop_course. simpl.
    by destruct (courses db !! Enrollment.course_id e). }
  assert (Forall (λ ke : string * Enrollment.t, Enrollment.id ke.2 = ke.1)
            (enrollments (after_drop enrollment_id e db))) as Hke'.
  { rewrite Henr.
    destruct (od_set_present enrollment_id (dropped e) e _ Hget) as (d1 & d2 & Hd & ->).
    rewrite Hd in Hke. apply Forall_app in Hke as [H1 H2].
    apply Forall_cons in H2 as [_ H2].
    apply Forall_app. split; [done|]. apply Forall_cons. split; [exact Hid|done]. }
  assert (NoDup (od_keys (enrollments (after_drop enrollment_id e db)))) as Hnd'.
  { rewrite Henr. by rewrite (od_keys_set_present _ _ e). }
  assert (sql_enrollments (after_drop enrollment_id e db)
          ≡ₚ od_values (enrollments (after_drop enrollment_id e db))) as Hperm'.
  { rewrite Henr, Hsqle.
    destruct (od_set_present enrollment_id (dropped e) e _ Hget) as (d1 & d2 & Hd & ->).
    rewrite Hd in Hperm, Hnd, Hke.
    unfold od_values in Hperm |- *. rewrite map_app in Hperm. rewrite map_app.
    simpl in Hperm |- *.
    apply (insert_or_replace_present e); [done|exact Hperm|].
    intros r Hr Heq.
    unfold od_keys in Hnd. rewrite map_app in Hnd. simpl in Hnd.
    apply NoDup_app in Hnd as (_ & Hapart & Hnd2).
    apply NoDup_cons in Hnd2 as [Hnot2 _].
    apply Forall_app in Hke as [Hk1 Hk2]. apply Forall_cons in Hk2 as [_ Hk2].
    assert (Enrollment.id r = enrollment_id) as Hrid by congruence.
    apply elem_of_app in Hr as [Hr|Hr].
    - apply (Hapart enrollment_id); [|apply list_elem_of_here].
      rewrite <- Hrid. by apply (value_id_in_keys d1).
    - apply Hnot2. rewrite <- Hrid. by apply (value_id_in_keys d2). }
  destruct (courses db !! Enrollment.course_id e) as [course|] eqn:Hc.
  - pose proof (Hkc _ _ Hc) as Hcid. simpl in Hcid.
    assert (courses (after_drop enrollment_id e db)
            = <[Enrollment.course_id e := decremented course]> (courses db)) as Hcourses.
    { unfold after_drop, after_drop_course. rewrite Hc. simpl.
      by rewrite Hcid, insert_alter_same. }
    split; [split_and!|].
    + split; [|exact Hke'].
      rewrite Hcourses. intros k c Hk.
      destruct (decide (Enrollment.course_id e = k)) as [<-|Hne].
      * rewrite lookup_insert_eq in Hk. injection Hk as <-. exact Hcid.
      * rewrite lookup_insert_ne in Hk by done. by apply (Hkc k c).
    + exact Hnd'.
    + rewrite Hcourses. apply Forall_forall. intros row Hrow.
      unfold after_drop, after_drop_course in Hrow. rewrite Hc in Hrow. simpl in Hrow.
      apply insert_or_replace_elem in Hrow as [->|[Hrow Hclash]].
      * simpl. rewrite Hcid. apply lookup_insert_eq.
      * unfold courses_clash in Hclash. apply orb_false_iff in Hclash as [Hne _].
        apply bool_decide_eq_false in Hne. simpl in Hne.
        rewrite lookup_insert_ne by congruence. by apply Hrows.
    + exact Hperm'.
    + unfold count_invariant. rewrite Hcourses. intros k c Hk.
      destruct (decide (Enrollment.course_id e = k)) as [<-|Hne].
      * rewrite lookup_insert_eq in Hk. injection Hk as <-. simpl.
        pose proof (Hinv _ _ Hc) as Hn. simpl in Hn.
        rewrite (count_enrolled_after_drop enrollment_id e db (Course.id course)) in Hn
          by done.
        rewrite Hcid, decide_True in Hn by done. rewrite Hcid. lia.
      * rewrite lookup_insert_ne in Hk by done.
        pose proof (Hinv _ _ Hk) as Hn. simpl in Hn.
        rewrite (count_enrolled_after_drop enrollment_id e db (Course.id c)) in Hn
          by done.
        rewrite (Hkc _ _ Hk), decide_False in Hn by done.
        rewrite (Hkc _ _ Hk). lia.
  - assert (after_drop_course e db = db) as Hsame.
    { unfold after_drop_course. by rewrite Hc. }
    assert (courses (after_drop enrollment_id e db) = courses db) as Hcs.
    { unfold after_drop. simpl. by rewrite Hsame. }
    assert (sql_courses (after_drop enrollment_id e db) = sql_courses db) as Hsc.
    { unfold after_drop. simpl. by rewrite Hsame. }
    split; [split_and!|].
    + split; [|exact Hke']. by rewrite Hcs.
    + exact Hnd'.
    + rewrite Hcs, Hsc. by apply Forall_forall.
    + exact Hperm'.
    + unfold count_invariant. rewrite Hcs.
      intros k c Hk. pose proof (Hinv _ _ Hk) as Hn. simpl in Hn.
      rewrite (count_enrolled_after_drop enrollment_id e db (Course.id c)) in Hn by done.
      rewrite decide_False in Hn; [lia|].
      rewrite (Hkc _ _ Hk). intros Heq. rewrite Heq in Hc. congruence.
Qed.

Lemma force_enrollment_success data uuid4 now db r db1 :
  force_enrollment data uuid4 now db = (Return r, db1) →
  ∃ student_id course_id semester course,
    courses db !! course_id = Some course
    ∧ db1 = committed (request_of student_id course_id semester) uuid4 now course db.
Proof.
  intros Hrun.
  destruct (data !! "student_id") as [s|] eqn:Hs.
  2:{ unfold force_enrollment, getitem, bind in Hrun. rewrite Hs in Hrun. done. }
  destruct (data !! "course_id") as [c|] eqn:Hc.
  2:{ unfold force_enrollment, getitem, bind in Hrun. rewrite Hs, Hc in Hrun. done. }
  destruct (data !! "semester") as [m|] eqn:Hm.
  2:{ unfold force_enrollment, getitem, bind in Hrun. rewrite Hs, Hc, Hm in Hrun. done. }
  rewrite (force_enrollment_eval _ _ _ _ _ _ _ Hs Hc Hm) in Hrun.
  destruct (users db !! s); [|done].
  destruct (courses db !! c) as [course|] eqn:Hco; [|done].
  destruct (binds (incremented course)); [|done].
  injection Hrun as _ <-. by exists s, c, m, course.
Qed.

(** One regular operation, in the store of the process that serves it. *)
Lemma regular_step_preserves db op r db1 :
  in_step db → count_invariant db →
  regular db op →
  endpoint op db = (Return r, db1) →
  in_step db1 ∧ count_invariant db1.
Proof.
  intros Hstep Hinv Hreg Hrun.
  destruct op as [request uuid4 now|enrollment_id|data uuid4 now]; simpl in *.
  - destruct (enroll_in_course_success _ _ _ _ _ _ Hrun)
      as (course & student & dbc & Hext & -> & _ & _ & _ & _ & _ & _ & _ & Hcc & _).
    destruct (in_step_same db dbc) as [Hstepc Hinvc];
      [by apply cache_ext_in_step|apply Hext|apply Hext|apply Hext|done|done|].
    apply committed_preserves; try done.
    by rewrite (ce_enrollments _ _ Hext).
  - destruct Hreg as (e & Hget & Hst).
    rewrite drop_course_eval, Hget in Hrun. injection Hrun as _ <-.
    by apply after_drop_preserves.
  - destruct (force_enrollment_success _ _ _ _ _ _ Hrun)
      as (s & c & m & course & Hc & ->).
    by apply committed_preserves.
Qed.

(** What an operation does to the process that serves it. *)
Lemma serve_served op sys r sys1 :
  serve op sys = (Return r, sys1) →
  endpoint op (db_of (served_by op) sys) = (Return r, db_of (served_by op) sys1).
Proof.
  unfold serve. intros Hrun.
  destruct (endpoint op (db_of (served_by op) sys)) as [o db'].
  injection Hrun as -> <-. f_equal.
  by destruct (served_by op), db'.
Qed.

Lemma tables_of_db_of s sys :
  sql_courses (db_of s sys) = t_courses (file sys)
  ∧ sql_enrollments (db_of s sys) = t_enrollments (file sys).
Proof. by destruct s. Qed.

(** C1, as the code has it.  Take a sequence of successful operations that
    one service serves ([enroll_in_course] and [drop_course] the student
    service, [force_enrollment] the admin service), in which every new id is
    unused and every drop is asked for an Enrollment whose status is
    "enrolled".  When it starts with the dictionaries of that service in
    step with the tables and the counters of its courses right, the
    counters are right again at its end, in [db.courses] of that service and
    in the courses table, and the dictionaries are in step with the tables
    again. *)
Theorem counter_invariant_of_regular_runs s sys ops sys' :
  Forall (λ op, served_by op = s) ops →
  in_step (db_of s sys) →
  count_invariant (db_of s sys) →
  regular_run sys ops sys' →
  count_invariant (db_of s sys')
  ∧ table_invariant (t_courses (file sys')) (t_enrollments (file sys'))
  ∧ in_step (db_of s sys').
Proof.
  intros Hs Hstep Hinv Hrun.
  assert (in_step (db_of s sys') ∧ count_invariant (db_of s sys')) as [Hstep' Hinv'].
  { induction Hrun as [sys|sys op r sys1 ops sys2 Hreg Hserve Hrest IH]; [done|].
    apply Forall_cons in Hs as [<- Hs].
    destruct (regular_step_preserves _ _ _ _ Hstep Hinv Hreg (serve_served _ _ _ _ Hserve))
      as [Hstep1 Hinv1].
    by apply IH. }
  split_and!; [done| |done].
  destruct (tables_of_db_of s sys') as [<- <-].
  by apply in_step_table_invariant.
Qed.

Lemma counter_invariant_of_regular_runs_witness :
  ∃ sys',
    regular_run consistent_services
      [ Enroll (request_of "student1" "cs201" "Fall 2024") "u1" 7%Z;
        Drop "u1";
        Drop "enr3" ] sys'
    ∧ count_invariant (db_of StudentService sys')
    ∧ table_invariant (t_courses (file sys')) (t_enrollments (file sys')).
Proof.
  assert (∃ sys',
    regular_run consistent_services
      [ Enroll (request_of "student1" "cs201" "Fall 2024") "u1" 7%Z;
        Drop "u1";
        Drop "enr3" ] sys') as [sys' Hrun].
  { eexists.
    eapply regular_cons; [by_evaluation|by_evaluation|].
    eapply regular_cons; [eexists; split; by_evaluation|by_evaluation|].
    eapply regular_cons; [eexists; split; by_evaluation|by_evaluation|].
    apply regular_nil. }
  exists sys'. split; [exact Hrun|].
  destruct (counter_invariant_of_regular_runs StudentService consistent_services
              [ Enroll (request_of "student1" "cs201" "Fall 2024") "u1" 7%Z;
                Drop "u1";
                Drop "enr3" ] sys')
    as (Hinv & Htable & _); [| | |exact Hrun|].
  - repeat constructor.
  - apply (loaded_in_step sample_users consistent_courses); by_evaluation.
  - by_evaluation.
  - split; [exact Hinv|exact Htable].
Defined.

(** The counters do not stay right along every sequence of successful
    operations.  After two drops of the same Enrollment the counter of
    cs101 is 0 while one Enrollment of cs101 still has status "enrolled".
    And after the student service enrolled student1 in cs201, the admin
    service, whose copy of cs201 still has the counter 0, enrolls student2:
    the table has the counter 1 for two enrolled rows.  Both new ids of that
    sequence are unused and it has no drop. *)
Lemma counter_broken_by_second_drop_and_by_other_service :
  ¬ counters_kept consistent_services [Drop "enr1"; Drop "enr1"]
  ∧ ¬ counters_kept consistent_services
        [ Enroll (request_of "student1" "cs201" "Fall 2024") "u1" 7%Z;
          ForceEnroll (override_body "student2" "cs201" "Fall 2024") "u2" 8%Z ]
  ∧ ∃ sys', regular_run consistent_services
              [ Enroll (request_of "student1" "cs201" "Fall 2024") "u1" 7%Z;
                ForceEnroll (override_body "student2" "cs201" "Fall 2024") "u2" 8%Z ]
              sys'.
Proof.
  split_and!.
  - assert (∃ sys', successful_run consistent_services [Drop "enr1"; Drop "enr1"] sys'
                    ∧ ¬ table_invariant (t_courses (file sys')) (t_enrollments (file sys')))
      as (sys' & Hrun & Hbad).
    { eexists. split.
      - eapply successful_cons; [by_evaluation|].
        eapply successful_cons; [by_evaluation|].
        apply successful_nil.
      - by_evaluation. }
    intros Hkept. apply Hbad. apply Hkept; [by_evaluation|by_evaluation|by_evaluation|].
    exact Hrun.
  - assert (∃ sys', successful_run consistent_services
                      [ Enroll (request_of "student1" "cs201" "Fall 2024") "u1" 7%Z;
                        ForceEnroll (override_body "student2" "cs201" "Fall 2024")
                          "u2" 8%Z ] sys'
                    ∧ ¬ table_invariant (t_courses (file sys')) (t_enrollments (file sys')))
      as (sys' & Hrun & Hbad).
    { eexists. split.
      - eapply successful_cons; [by_evaluation|].
        eapply successful_cons; [by_evaluation|].
        apply successful_nil.
      - by_evaluation. }
    intros Hkept. apply Hbad. apply Hkept; [by_evaluation|by_evaluation|by_evaluation|].
    exact Hrun.
  - eexists.
    eapply regular_cons; [by_evaluation|by_evaluation|].
    eapply regular_cons; [by_evaluation|by_evaluation|].
    apply regular_nil.
Qed.
